(** * Registration, login and the token guard of the Express scaffold

    A shallow embedding of the JavaScript sources of the repository:
    - [src/middlewares/auth.middleware.js]  ([authMiddleware]),
    - [src/utils/errorHandler.util.js]      ([ApiError]),
    - [src/controllers/auth.controller.js]  ([login], [signUp], [SECRET]),
    - [src/controllers/user.controller.js]  ([getAll]),
    - [src/repositories/user.repository.js] ([findUserByEmail], [insertUser]),
    - [src/routes/user.routes.js]           (the protected route),
    - the guide's service and controller    ([hashSenha], [compararSenha],
      [gerarToken], [register], [login_guide], [guide_middleware]).

    JavaScript values are a small inductive type, [process.env] and the
    request headers are finite maps, the users table is a list of rows,
    exceptions are an explicit result type, and Express's [next] / [res]
    calls are the value a handler returns.  The libraries the code calls
    (bcrypt, jsonwebtoken) are interfaces: every theorem about a controller
    holds for any implementation of them. *)

From Stdlib Require Import String Ascii ZArith List Bool Lia.
From stdpp Require Import base option list gmap strings.

Import ListNotations.
Local Open Scope string_scope.
Local Open Scope Z_scope.

(** ** JavaScript values *)

#[local] Set Warnings "-register-all".

Inductive JsVal : Type :=
| VUndefined
| VNull
| VBool (b : bool)
| VNum (n : Z)
| VStr (s : string)
| VArr (items : list JsVal)
| VObj (fields : list (string * JsVal)).

(** ToBoolean: [undefined], [null], [false], [0] and the empty string are
    falsy; every array and every object is truthy, the empty ones too. *)
Definition truthy (v : JsVal) : bool :=
  match v with
  | VUndefined | VNull => false
  | VBool b => b
  | VNum n => negb (n =? 0)
  | VStr s => negb (String.eqb s "")
  | VArr _ | VObj _ => true
  end.

(** Property read [o.k]: the first field named [k], [undefined] otherwise. *)
Fixpoint get_field (k : string) (fields : list (string * JsVal)) : JsVal :=
  match fields with
  | [] => VUndefined
  | (k', v) :: rest => if String.eqb k k' then v else get_field k rest
  end.

Definition prop (k : string) (v : JsVal) : JsVal :=
  match v with
  | VObj fields => get_field k fields
  | _ => VUndefined
  end.

(** A [throw] carries the [message] of the error; [Ok] is a normal return
    (for an [async] function: the value the promise resolves to). *)
Inductive Outcome (A : Type) : Type :=
| Ok (a : A)
| Throw (msg : string).
Arguments Ok {A} a.
Arguments Throw {A} msg.

(** ** Strings: [split] and [parseInt] *)

(** [s.split(sep)] for a one-character separator: [''.split(' ')] is
    [['']], consecutive separators give empty segments. *)
Fixpoint split (sep : ascii) (s : string) : list string :=
  match s with
  | EmptyString => [EmptyString]
  | String c rest =>
      if Ascii.eqb c sep then EmptyString :: split sep rest
      else match split sep rest with
           | [] => [String c EmptyString]
           | seg :: segs => String c seg :: segs
           end
  end.

Definition is_space (c : ascii) : bool :=
  let n := nat_of_ascii c in
  Nat.eqb n 32 || (Nat.leb 9 n && Nat.leb n 13).

Fixpoint skip_spaces (s : string) : string :=
  match s with
  | String c rest => if is_space c then skip_spaces rest else s
  | EmptyString => s
  end.

(** The value of a character as a digit of the given radix (10 or 16). *)
Definition digit_value (radix : Z) (c : ascii) : option Z :=
  let n := Z.of_nat (nat_of_ascii c) in
  let d := if (48 <=? n) && (n <=? 57) then Some (n - 48)
           else if (97 <=? n) && (n <=? 102) then Some (n - 87)
           else if (65 <=? n) && (n <=? 70) then Some (n - 55)
           else None in
  match d with
  | Some v => if v <? radix then Some v else None
  | None => None
  end.

(** Reads the longest prefix of digits; [None] when there is none. *)
Fixpoint read_digits (radix : Z) (acc : option Z) (s : string) : option Z :=
  match s with
  | EmptyString => acc
  | String c rest =>
      match digit_value radix c with
      | Some d => read_digits radix (Some (radix * default 0 acc + d)) rest
      | None => acc
      end
  end.

(** [parseInt(x)] without a radix: [None] is [NaN].  [undefined] has no
    digits; leading white space (ASCII) is skipped, a sign is read, a
    [0x] / [0X] prefix switches to radix 16, and reading stops at the
    first character that is not a digit. *)
Definition parseInt (x : option string) : option Z :=
  match x with
  | None => None
  | Some s =>
      let s1 := skip_spaces s in
      let (sign, s2) :=
        match s1 with
        | String "-" r => (-1, r)
        | String "+" r => (1, r)
        | _ => (1, s1)
        end in
      let (radix, s3) :=
        match s2 with
        | String "0" (String "x" r) => (16, r)
        | String "0" (String "X" r) => (16, r)
        | _ => (10, s2)
        end in
      match read_digits radix None s3 with
      | Some n => Some (sign * n)
      | None => None
      end
  end.

(** [n || d] on a number: [NaN] and [0] are falsy. *)
Definition num_or (n : option Z) (d : Z) : Z :=
  match n with
  | Some v => if v =? 0 then d else v
  | None => d
  end.

(** [s || d] on an optional string ([process.env.X || 'd']). *)
Definition str_or (s : option string) (d : string) : string :=
  match s with
  | Some v => if String.eqb v "" then d else v
  | None => d
  end.

(** ** [ApiError] (errorHandler.util.js) *)

Record ApiError : Type := mkApiError {
  message : string;
  status : Z;
  errors : JsVal
}.

(** ** The users table and the repository *)

Record User : Type := mkUser {
  user_id : Z;
  user_name : string;
  user_email : string;
  user_password : string
}.

(** The table of the migration: serial [id], unique [email].  [outage] is
    the error every query raises while the database cannot be reached. *)
Record Db : Type := mkDb {
  rows : list User;
  next_id : Z;
  outage : option string
}.

Definition row_json (u : User) : JsVal :=
  VObj [("id", VNum (user_id u)); ("name", VStr (user_name u));
        ("email", VStr (user_email u)); ("password", VStr (user_password u))].

(** [db("users").where("email", email).first()] *)
Definition findUserByEmail (email : string) (d : Db) : Outcome (option User) :=
  match outage d with
  | Some msg => Throw msg
  | None => Ok (List.find (fun u => String.eqb (user_email u) email) (rows d))
  end.

(** [db("users").insert(user).returning("*")]: the inserted rows, with
    every column, and the table after the insert. *)
Definition insertUser (name email password : string) (d : Db)
  : Outcome (list User) * Db :=
  match outage d with
  | Some msg => (Throw msg, d)
  | None =>
      if existsb (fun u => String.eqb (user_email u) email) (rows d)
      then (Throw "duplicate key value violates unique constraint users_email_unique", d)
      else
        let u := mkUser (next_id d) name email password in
        (Ok [u], mkDb (rows d ++ [u]) (next_id d + 1) None)
  end.

(** ** The libraries the controllers call *)

(** bcrypt: [genSalt(rounds)] draws on a source of randomness, here an
    argument; [rounds] is a JavaScript number, [None] being [NaN]. *)
Class Bcrypt : Type := {
  bcrypt_genSalt : option Z -> string -> Outcome string;
  bcrypt_hash : string -> string -> Outcome string;
  bcrypt_compare : string -> string -> Outcome bool
}.

(** jsonwebtoken: [sign(payload, secret, { expiresIn })] at a given time;
    [verify(token, secret, callback)] either throws, or calls the callback
    once with an error ([inl], its message) or with the decoded payload.
    The secret is a JavaScript value: [None] is [undefined]. *)
Class Jwt : Type := {
  jwt_sign : JsVal -> option string -> string -> Z -> Outcome string;
  jwt_verify : string -> option string -> Z -> Outcome (string + JsVal)
}.

(** ** Requests, the world a handler runs in, and what a handler does *)

(** A request as a controller sees it: the headers under their
    lower-case names, the fields of the body that the validation
    middleware of the route has let through (a field the route does not
    have is empty), and [req.user]. *)
Record Request : Type := mkRequest {
  headers : gmap string string;
  body_name : string;
  body_email : string;
  body_password : string;
  user : option JsVal
}.

Definition set_user (req : Request) (u : JsVal) : Request :=
  mkRequest (headers req) (body_name req) (body_email req) (body_password req) (Some u).

Record World : Type := mkWorld {
  env : gmap string string;
  db : Db;
  now : Z;
  entropy : list string
}.

Definition set_db (w : World) (d : Db) : World :=
  mkWorld (env w) d (now w) (entropy w).

Definition draw_entropy (w : World) : string * World :=
  (hd "" (entropy w), mkWorld (env w) (db w) (now w) (tl (entropy w))).

(** What a handler ends with: [next()], [next(err)],
    [res.status(code).json(body)], or an exception that leaves it. *)
Inductive Action : Type :=
| Next (req : Request)
| NextErr (err : ApiError)
| Send (code : Z) (body : JsVal)
| Uncaught (msg : string).

Definition Handler : Type := Request -> World -> Action * World.

(** ** Handlers as computations: world passing with exceptions *)

Definition M (A : Type) : Type := World -> Outcome A * World.

Definition ret {A : Type} (a : A) : M A := fun w => (Ok a, w).

Definition raise {A : Type} (msg : string) : M A := fun w => (Throw msg, w).

Definition bindM {A B : Type} (m : M A) (k : A -> M B) : M B :=
  fun w =>
    match m w with
    | (Ok a, w') => k a w'
    | (Throw msg, w') => (Throw msg, w')
    end.

Notation "x <- m ;; k" := (bindM m (fun x => k))
  (at level 100, m at next level, right associativity).

(** [await] of a call that may reject. *)
Definition await {A : Type} (o : Outcome A) : M A := fun w => (o, w).

Definition query {A : Type} (q : Db -> Outcome A) : M A :=
  fun w => (q (db w), w).

Definition update {A : Type} (q : Db -> Outcome A * Db) : M A :=
  fun w => let (r, d) := q (db w) in (r, set_db w d).

Definition getenv (k : string) : M (option string) :=
  fun w => (Ok (env w !! k), w).

Definition environment : M (gmap string string) :=
  fun w => (Ok (env w), w).

Definition clock : M Z := fun w => (Ok (now w), w).

Definition random : M string :=
  fun w => let (seed, w') := draw_entropy w in (Ok seed, w').

(** [try { body } catch (error) { next(handler(error.message)) }] *)
Definition try_catch (body : M Action) (handler : string -> ApiError) : World -> Action * World :=
  fun w =>
    match body w with
    | (Ok a, w') => (a, w')
    | (Throw msg, w') => (NextErr (handler msg), w')
    end.

(** A handler without [try]: an exception leaves it. *)
Definition no_catch (body : M Action) : World -> Action * World :=
  fun w =>
    match body w with
    | (Ok a, w') => (a, w')
    | (Throw msg, w') => (Uncaught msg, w')
    end.

(** ** middlewares/auth.middleware.js *)

(** [tokenHeader && tokenHeader.split(" ")[1]]: [None] is [undefined]. *)
Definition extract_token (tokenHeader : option string) : option string :=
  match tokenHeader with
  | None => None
  | Some h => if String.eqb h "" then Some "" else split " " h !! 1%nat
  end.

(** [!token] *)
Definition no_token (token : option string) : bool :=
  match token with
  | None => true
  | Some t => String.eqb t ""
  end.

Definition authMiddleware `{Jwt} : Handler := fun req =>
  try_catch
    (let tokenHeader := headers req !! "authorization" in
     let token := extract_token tokenHeader in
     if no_token token then
       ret (NextErr (mkApiError "Token not found" 401
                       (VObj [("token", VStr "Token not found")])))
     else
       secret <- getenv "JWT_SECRET" ;;
       t <- clock ;;
       r <- await (jwt_verify (default "" token) (Some (str_or secret "secret")) t) ;;
       match r with
       | inl error_message =>
           ret (NextErr (mkApiError "Error authenticating user" 401 (VStr error_message)))
       | inr decoded => ret (Next (set_user req decoded))
       end)
    (fun error_message => mkApiError "Error authenticating user" 401 (VStr error_message)).

(** ** controllers/auth.controller.js *)

(** [const SECRET = process.env.JWT_SECRET || "secret"] *)
Definition SECRET (e : gmap string string) : string :=
  str_or (e !! "JWT_SECRET") "secret".

Definition login `{Bcrypt} `{Jwt} : Handler := fun req =>
  try_catch
    (let email := body_email req in
     let password := body_password req in
     found <- query (findUserByEmail email) ;;
     match found with
     | None =>
         ret (NextErr (mkApiError "User not found" 404
                         (VObj [("email", VStr "User not found")])))
     | Some u =>
         isPasswordValid <- await (bcrypt_compare password (user_password u)) ;;
         if negb isPasswordValid then
           ret (NextErr (mkApiError "Invalid password" 401
                           (VObj [("password", VStr "Invalid password")])))
         else
           e <- environment ;;
           t <- clock ;;
           token <- await (jwt_sign (VObj [("id", VNum (user_id u))])
                             (Some (SECRET e)) "1h" t) ;;
           ret (Send 200 (VObj [("message", VStr "User logged in successfully");
                                ("token", VStr token)]))
     end)
    (fun error_message => mkApiError "Error logging in" 400 (VStr error_message)).

Definition signUp `{Bcrypt} : Handler := fun req =>
  try_catch
    (let name := body_name req in
     let email := body_email req in
     let password := body_password req in
     found <- query (findUserByEmail email) ;;
     match found with
     | Some _ =>
         ret (NextErr (mkApiError "User already exists" 400
                         (VObj [("email", VStr "User already exists")])))
     | None =>
         rounds <- getenv "SALT_ROUNDS" ;;
         seed <- random ;;
         salt <- await (bcrypt_genSalt (Some (num_or (parseInt rounds) 10)) seed) ;;
         hashedPassword <- await (bcrypt_hash password salt) ;;
         newUser <- update (insertUser name email hashedPassword) ;;
         ret (Send 201 (VObj [("message", VStr "User created successfully");
                              ("user", VArr (map row_json newUser))]))
     end)
    (fun error_message => mkApiError "Error creating user" 400 (VStr error_message)).

(** ** controllers/user.controller.js *)

Section UserController.

(** [userRepository.findAllUsers] is called by the controller and is not
    among the functions of the repository: it is a parameter here, with
    any JavaScript value as its result. *)
Variable findAllUsers : Db -> Outcome JsVal.

Definition getAll : Handler := fun req =>
  try_catch
    (users <- query findAllUsers ;;
     if negb (truthy users) then
       ret (NextErr (mkApiError "Users not found" 404
                       (VObj [("users", VStr "Users not found")])))
     else ret (Send 200 users))
    (fun error_message => mkApiError "Error getting users" 500 (VStr error_message)).

End UserController.

(** ** Express: a route's handler stack *)

Inductive ResBody : Type :=
| JsonBody (v : JsVal)
| ErrorPage (msg : string)
| NotFoundPage.

Record Response : Type := mkResponse {
  res_code : Z;
  res_body : ResBody
}.

(** No error-handling middleware is registered in app.js, so [next(err)]
    ends in Express's own: the status is [err.status] when that is a 4xx
    or 5xx code and 500 otherwise. *)
Definition default_error_handler (err : ApiError) : Response :=
  mkResponse
    (if (400 <=? status err) && (status err <? 600) then status err else 500)
    (ErrorPage (message err)).

(** Runs the handlers of a route in order and records the ones invoked:
    [next()] passes on to the following handler, [next(err)] skips all of
    them, a sent response ends the request. *)
Fixpoint dispatch (stack : list (string * Handler)) (req : Request) (w : World)
  : list string * Response * World :=
  match stack with
  | [] => ([], mkResponse 404 NotFoundPage, w)
  | (name, h) :: rest =>
      match h req w with
      | (Next req', w') =>
          let '(trace, res, w'') := dispatch rest req' w' in
          (name :: trace, res, w'')
      | (NextErr err, w') => ([name], default_error_handler err, w')
      | (Send code body, w') => ([name], mkResponse code (JsonBody body), w')
      | (Uncaught msg, w') => ([name], mkResponse 500 (ErrorPage msg), w')
      end
  end.

(** [router.get("/", authMiddleware, userController.getAll)] *)
Definition profile_route `{Jwt} (findAllUsers : Db -> Outcome JsVal)
  : list (string * Handler) :=
  [("authMiddleware", authMiddleware); ("getAll", getAll findAllUsers)].

(** [router.post("/register", ..., authController.signUp)] and
    [router.post("/login", ..., authController.login)], after the
    validation middleware has let the body through. *)
Definition register_route `{Bcrypt} : list (string * Handler) :=
  [("signUp", signUp)].

Definition login_route `{Bcrypt} `{Jwt} : list (string * Handler) :=
  [("login", login)].

(** ** The guide: services/auth.service.js and its controllers *)

(** The Mongoose model of the guide; its run time is not part of the
    repository, so [User.findOne({ email })] and [User.create(...)] are
    an interface over the same table. *)
Class UserModel : Type := {
  findOne : string -> Db -> Outcome (option User);
  create : string -> string -> string -> Db -> Outcome User * Db
}.

(** [const saltRounds = parseInt(process.env.BCRYPT_SALT_ROUNDS || '10')] *)
Definition saltRounds (e : gmap string string) : option Z :=
  parseInt (Some (str_or (e !! "BCRYPT_SALT_ROUNDS") "10")).

(** [const jwtSecret = process.env.JWT_SECRET] *)
Definition jwtSecret (e : gmap string string) : option string :=
  e !! "JWT_SECRET".

(** [const jwtExpiresIn = process.env.JWT_EXPIRES_IN || '1d'] *)
Definition jwtExpiresIn (e : gmap string string) : string :=
  str_or (e !! "JWT_EXPIRES_IN") "1d".

Definition hashSenha `{Bcrypt} (senha : string) : M string :=
  fun w =>
    (seed <- random ;;
     salt <- await (bcrypt_genSalt (saltRounds (env w)) seed) ;;
     await (bcrypt_hash senha salt)) w.

Definition compararSenha `{Bcrypt} (senha hash : string) : M bool :=
  await (bcrypt_compare senha hash).

Definition gerarToken `{Jwt} (payload : JsVal) : M string :=
  fun w =>
    await (jwt_sign payload (jwtSecret (env w)) (jwtExpiresIn (env w)) (now w)) w.

Definition is_empty (s : string) : bool := String.eqb s "".

Definition register `{Bcrypt} `{UserModel} : Handler := fun req w =>
  match
    (let nome := body_name req in
     let email := body_email req in
     let senha := body_password req in
     if is_empty nome || is_empty email || is_empty senha then
       ret (Send 400 (VObj [("message", VStr "Campos obrigatórios")]))
     else
       exists_ <- query (findOne email) ;;
       match exists_ with
       | Some _ => ret (Send 409 (VObj [("message", VStr "Email já em uso")]))
       | None =>
           senhaHash <- hashSenha senha ;;
           u <- update (create nome email senhaHash) ;;
           ret (Send 201 (VObj [("id", VNum (user_id u));
                                ("nome", VStr (user_name u));
                                ("email", VStr (user_email u))]))
       end) w
  with
  | (Ok a, w') => (a, w')
  | (Throw _, w') => (Send 500 (VObj [("message", VStr "Erro ao cadastrar usuário")]), w')
  end.

Definition opt_str (s : option string) : JsVal :=
  match s with
  | Some v => VStr v
  | None => VUndefined
  end.

Definition login_guide `{Bcrypt} `{Jwt} `{UserModel} : Handler := fun req w =>
  match
    (let email := body_email req in
     let senha := body_password req in
     if is_empty email || is_empty senha then
       ret (Send 400 (VObj [("message", VStr "Campos obrigatórios")]))
     else
       found <- query (findOne email) ;;
       match found with
       | None => ret (Send 401 (VObj [("message", VStr "Credenciais inválidas")]))
       | Some u =>
           ok <- compararSenha senha (user_password u) ;;
           if negb ok then
             ret (Send 401 (VObj [("message", VStr "Credenciais inválidas")]))
           else
             token <- gerarToken (VObj [("sub", VNum (user_id u));
                                        ("email", VStr (user_email u))]) ;;
             ret (Send 200 (VObj [("token", VStr token);
                                  ("expiresIn", opt_str (env w !! "JWT_EXPIRES_IN"))]))
       end) w
  with
  | (Ok a, w') => (a, w')
  | (Throw _, w') => (Send 500 (VObj [("message", VStr "Erro ao realizar login")]), w')
  end.

(** The guide's version of middlewares/auth.middleware.js. *)
Definition guide_middleware `{Jwt} : Handler := fun req =>
  no_catch
    (match headers req !! "authorization" with
     | None => ret (Send 401 (VObj [("message", VStr "Token não fornecido")]))
     | Some header =>
         if is_empty header then
           ret (Send 401 (VObj [("message", VStr "Token não fornecido")]))
         else
           match split " " header with
           | [scheme; token] =>
               if negb (String.eqb scheme "Bearer") then
                 ret (Send 401 (VObj [("message", VStr "Token inválido")]))
               else
                 secret <- getenv "JWT_SECRET" ;;
                 t <- clock ;;
                 r <- await (jwt_verify token secret t) ;;
                 match r with
                 | inl _ => ret (Send 401 (VObj [("message", VStr "Token inválido ou expirado")]))
                 | inr decoded => ret (Next (set_user req decoded))
                 end
           | _ => ret (Send 401 (VObj [("message", VStr "Token inválido")]))
           end
     end).

(** ** The password hasher *)

Module PasswordHasher.

(** The bcrypt library is not part of the repository: the hasher is
    modelled from section 4.1 of the spec.  A digest is self-describing:
    it starts with the algorithm identifier, the cost factor and the
    salt, followed by the derived output.  The derivation itself is a
    parameter.  The spec leaves the supported range of costs and the
    input ceiling open: they are bcrypt's, 4 to 31 and 72 bytes. *)
Section Hasher.

Variable derive : string -> string -> string.

Definition cost_ok (c : Z) : bool := (4 <=? c) && (c <=? 31).

Definition input_ceiling : nat := 72.

Definition digit (d : Z) : ascii := ascii_of_nat (48 + Z.to_nat d).

Definition two_digits (c : Z) : string :=
  String (digit (c / 10)) (String (digit (c mod 10)) "").

(** Exactly [n] characters of the seed, padded with dots. *)
Fixpoint fit (n : nat) (seed : string) : string :=
  match n with
  | O => ""
  | S n' =>
      match seed with
      | EmptyString => String "." (fit n' "")
      | String c rest => String c (fit n' rest)
      end
  end.

Definition digit_of (c : ascii) : option Z := digit_value 10 c.

(** The cost and the raw salt of a salt string [$2b$cc$<22 chars>]. *)
Definition parse_salt (s : string) : option (Z * string) :=
  match s with
  | String "$" (String "2" (String "b" (String "$"
      (String d1 (String d0 (String "$" raw)))))) =>
      match digit_of d1, digit_of d0 with
      | Some hi, Some lo =>
          if cost_ok (10 * hi + lo) && Nat.eqb (String.length raw) 22
          then Some (10 * hi + lo, raw)
          else None
      | _, _ => None
      end
  | _ => None
  end.

(** Modelled from the spec: bcrypt's [genSalt], missing from the
    repository; the salt is fresh per call and the cost factor must be in
    the supported range. *)
Definition genSalt (rounds : option Z) (seed : string) : Outcome string :=
  match rounds with
  | Some c =>
      if cost_ok c then Ok ("$2b$" ++ two_digits c ++ "$" ++ fit 22 seed)
      else Throw "HashingError: cost factor out of range"
  | None => Throw "HashingError: cost factor out of range"
  end.

(** Modelled from the spec: bcrypt's [hash(data, salt)], missing from the
    repository; the digest encodes the algorithm identifier, salt, cost
    factor and derived output, and a plaintext over the input ceiling is
    a [HashingError]. *)
Definition hash_with_salt (plaintext salt : string) : Outcome string :=
  if Nat.ltb input_ceiling (String.length plaintext) then
    Throw "HashingError: plaintext too long"
  else
    match parse_salt salt with
    | Some _ => Ok (salt ++ derive plaintext salt)
    | None => Throw "HashingError: malformed salt"
    end.

(** Modelled from the spec: [hash(plaintext, costFactor)] of section 4.1,
    missing from the repository, with the fresh salt drawn from [seed]. *)
Definition hash (plaintext : string) (costFactor : Z) (seed : string)
  : Outcome string :=
  match genSalt (Some costFactor) seed with
  | Ok salt => hash_with_salt plaintext salt
  | Throw msg => Throw msg
  end.

(** Modelled from the spec: [verify(plaintext, digest)] of section 4.1,
    missing from the repository; it recomputes with the salt and cost
    embedded in the digest and compares, answers [false] on a mismatch
    and fails only on a malformed digest. *)
Definition verify (plaintext digest : string) : Outcome bool :=
  let salt := substring 0 29 digest in
  match parse_salt salt with
  | Some _ => Ok (String.eqb (salt ++ derive plaintext salt) digest)
  | None => Throw "HashingError: malformed digest"
  end.

Definition bcrypt : Bcrypt :=
  {| bcrypt_genSalt := genSalt;
     bcrypt_hash := hash_with_salt;
     bcrypt_compare := verify |}.

End Hasher.

End PasswordHasher.

(** ** Stand-ins to run the handlers on concrete requests *)

Module Demo.

(** A toy derivation, good enough to tell two passwords apart: a rolling
    checksum of the salt and the plaintext, printed as eight hex digits. *)
Fixpoint mix (acc : Z) (s : string) : Z :=
  match s with
  | EmptyString => acc
  | String c rest => mix ((acc * 31 + Z.of_nat (nat_of_ascii c)) mod 4294967296) rest
  end.

Definition hex_digit (d : Z) : ascii :=
  ascii_of_nat (Z.to_nat (if d <? 10 then 48 + d else 87 + d)).

Fixpoint hex (width : nat) (n : Z) : string :=
  match width with
  | O => ""
  | S k => hex k (n / 16) ++ String (hex_digit (n mod 16)) ""
  end.

Definition derive (plaintext salt : string) : string :=
  hex 8 (mix (mix 7 salt) plaintext).

Definition bcrypt : Bcrypt := PasswordHasher.bcrypt derive.

(** A stand-in for jsonwebtoken: the token names its key, and signing
    refuses a missing or empty key as the library does. *)
Definition jwt : Jwt :=
  {| jwt_sign := fun payload secret expiresIn t =>
       match secret with
       | Some k =>
           if String.eqb k "" then Throw "secretOrPrivateKey must have a value"
           else Ok ("signed-with:" ++ k)
       | None => Throw "secretOrPrivateKey must have a value"
       end;
     jwt_verify := fun token secret t =>
       match secret with
       | Some k =>
           if String.eqb token ("signed-with:" ++ k)
           then Ok (inr (VObj [("id", VNum 1)]))
           else Ok (inl "invalid signature")
       | None => Ok (inl "secret or public key must be provided")
       end |}.

(** [db("users").select()]: every row, an array also when there is none. *)
Definition findAllUsers (d : Db) : Outcome JsVal :=
  match outage d with
  | Some msg => Throw msg
  | None => Ok (VArr (map row_json (rows d)))
  end.

Definition model : UserModel :=
  {| findOne := findUserByEmail;
     create := fun nome email senha d =>
       match insertUser nome email senha d with
       | (Ok (u :: _), d') => (Ok u, d')
       | (Ok [], d') => (Throw "no document", d')
       | (Throw msg, d') => (Throw msg, d')
       end |}.

(** What [bcrypt] makes of alice's password, Secret123!, at cost 10. *)
Definition alice_digest : string :=
  Eval vm_compute in
    match PasswordHasher.hash derive "Secret123!" 10 "saltsaltsaltsaltsaltsa" with
    | Ok digest => digest
    | Throw _ => ""
    end.

Definition alice : User := mkUser 1 "alice" "alice@x.com" alice_digest.

Definition empty_db : Db := mkDb [] 1 None.

Definition alice_db : Db := mkDb [alice] 2 None.

(** No [JWT_SECRET] and no [SALT_ROUNDS] in the environment, as in the
    guide's example [.env] of the practical project. *)
Definition world (d : Db) : World :=
  mkWorld ∅ d 1000 ["saltsaltsaltsaltsaltsa"; "pepperpepperpepperpeppe"].

Definition post (name email password : string) : Request :=
  mkRequest ∅ name email password None.

Definition get (authorization : option string) : Request :=
  mkRequest
    (match authorization with
     | Some h => {["authorization" := h]}
     | None => ∅
     end) "" "" "" None.

End Demo.


(** ** Notions the statements use *)

(** Some stored record carries exactly this login key. *)
Definition known_email (email : string) (d : Db) : Prop :=
  exists u, In u (rows d) /\ user_email u = email.

(** [JWT_SECRET] is unset or empty. *)
Definition secret_missing (e : gmap string string) : Prop :=
  e !! "JWT_SECRET" = None \/ e !! "JWT_SECRET" = Some "".

(** The same world with [JWT_SECRET] configured. *)
Definition with_secret (w : World) (k : string) : World :=
  mkWorld (<["JWT_SECRET" := k]> (env w)) (db w) (now w) (entropy w).

Fixpoint no_space (s : string) : bool :=
  match s with
  | EmptyString => true
  | String c rest => negb (Ascii.eqb c " ") && no_space rest
  end.

Definition already_exists : ApiError :=
  mkApiError "User already exists" 400 (VObj [("email", VStr "User already exists")]).

Definition not_found : ApiError :=
  mkApiError "User not found" 404 (VObj [("email", VStr "User not found")]).

Definition created (u : User) : Action :=
  Send 201 (VObj [("message", VStr "User created successfully");
                  ("user", VArr [row_json u])]).

(** ** The rest of the repository, the seed and the guide's profile route *)

(** [db("users").where({ id: id }).first()] *)
Definition findUserById (id : Z) (d : Db) : Outcome (option User) :=
  match outage d with
  | Some msg => Throw msg
  | None => Ok (List.find (fun u => user_id u =? id) (rows d))
  end.

(** [db("users").where("id", id).del()]: the number of rows deleted, and
    the table without them. *)
Definition deleteUser (id : Z) (d : Db) : Outcome Z * Db :=
  match outage d with
  | Some msg => (Throw msg, d)
  | None =>
      let kept := List.filter (fun u => negb (user_id u =? id)) (rows d) in
      (Ok (Z.of_nat (length (rows d)) - Z.of_nat (length kept)),
       mkDb kept (next_id d) None)
  end.

(** [knex("users").del()] without a [where]: every row goes, the sequence
    of identifiers stays where it is. *)
Definition deleteAll (d : Db) : Outcome Z * Db :=
  match outage d with
  | Some msg => (Throw msg, d)
  | None => (Ok (Z.of_nat (length (rows d))), mkDb [] (next_id d) None)
  end.

(** The rows of one insert get consecutive identifiers. *)
Fixpoint number_rows (n : Z) (new : list (string * string * string)) : list User :=
  match new with
  | [] => []
  | (name, email, password) :: rest =>
      mkUser n name email password :: number_rows (n + 1) rest
  end.

Fixpoint has_repeat (keys : list string) : bool :=
  match keys with
  | [] => false
  | k :: rest => existsb (String.eqb k) rest || has_repeat rest
  end.

(** [knex("users").insert([...])]: one statement for all the rows; an
    address that is repeated, among the new rows or against the table,
    fails the statement and leaves the rows as they were. *)
Definition insertMany (new : list (string * string * string)) (d : Db)
  : Outcome unit * Db :=
  match outage d with
  | Some msg => (Throw msg, d)
  | None =>
      let added := number_rows (next_id d) new in
      if has_repeat (map user_email (rows d ++ added))
      then (Throw "duplicate key value violates unique constraint users_email_unique", d)
      else (Ok tt, mkDb (rows d ++ added) (next_id d + Z.of_nat (length new)) None)
  end.

Definition seed_users : list (string * string * string) :=
  [("Alice Souza", "alice@example.com", "hashed_password_1");
   ("Bruno Lima", "bruno@example.com", "hashed_password_2");
   ("Carla Mendes", "carla@example.com", "hashed_password_3")].

(** The seed: [await knex("users").del()] and then the insert of the
    three example users. *)
Definition seed (d : Db) : Outcome unit * Db :=
  match deleteAll d with
  | (Ok _, d1) => insertMany seed_users d1
  | (Throw msg, d1) => (Throw msg, d1)
  end.

(** The guide's protected route,
    [app.get('/api/profile', authMiddleware, async (req, res) => ...)]:
    reading [req.user.sub] throws when [req.user] is [undefined] or
    [null]; a [sub] that is missing is left out of the JSON that is sent,
    as an [undefined] field is. *)
Definition profile : Handler := fun req =>
  no_catch
    (match user req with
     | None | Some VUndefined =>
         raise "Cannot read properties of undefined (reading 'sub')"
     | Some VNull => raise "Cannot read properties of null (reading 'sub')"
     | Some claims =>
         let userId := prop "sub" claims in
         ret (Send 200 (VObj [("message", VStr "Acesso autorizado");
                              ("userId", userId)]))
     end).

Definition guide_profile_route `{Jwt} : list (string * Handler) :=
  [("authMiddleware", guide_middleware); ("profile", profile)].

(** ** More notions the statements use *)

(** What the migration promises of the table: addresses are unique,
    identifiers are unique and were all handed out by the sequence. *)
Definition db_ok (d : Db) : Prop :=
  List.NoDup (map user_email (rows d)) /\
  List.NoDup (map user_id (rows d)) /\
  Forall (fun u => user_id u < next_id d) (rows d).

(** [segments.join(sep)] *)
Fixpoint join (sep : ascii) (segments : list string) : string :=
  match segments with
  | [] => ""
  | [s] => s
  | s :: rest => s ++ String sep (join sep rest)
  end.

Fixpoint lacks (sep : ascii) (s : string) : bool :=
  match s with
  | EmptyString => true
  | String c rest => negb (Ascii.eqb c sep) && lacks sep rest
  end.

Definition logged_in (token : string) : Action :=
  Send 200 (VObj [("message", VStr "User logged in successfully");
                  ("token", VStr token)]).

Definition token_not_found : ApiError :=
  mkApiError "Token not found" 401 (VObj [("token", VStr "Token not found")]).

(** What the guard does with the answer of [jwt.verify]. *)
Definition guard_verdict (req : Request) (r : Outcome (string + JsVal)) : Action :=
  match r with
  | Ok (inr decoded) => Next (set_user req decoded)
  | Ok (inl msg) | Throw msg =>
      NextErr (mkApiError "Error authenticating user" 401 (VStr msg))
  end.

(** ** The routes of auth.routes.js and trimming *)








(** * Theorems *)

(** Unfolds the plumbing of a handler so that it computes. *)
Ltac run :=
  unfold try_catch, no_catch, bindM, ret, raise, await, query, update,
    getenv, environment, clock, random, draw_entropy, set_db in *;
  simpl in *.

(** ** The token guard *)

Lemma authMiddleware_no_token `{Jwt} (req : Request) (w : World) :
  no_token (extract_token (headers req !! "authorization")) = true ->
  authMiddleware req w =
    (NextErr (mkApiError "Token not found" 401
                (VObj [("token", VStr "Token not found")])), w).
Proof. intros Hno. unfold authMiddleware. run. now rewrite Hno. Qed.

Lemma authMiddleware_verifies `{Jwt} (req : Request) (w : World) (t : string) :
  extract_token (headers req !! "authorization") = Some t ->
  t <> "" ->
  authMiddleware req w =
    (match jwt_verify t (Some (SECRET (env w))) (now w) with
     | Ok (inr decoded) => Next (set_user req decoded)
     | Ok (inl msg) | Throw msg =>
         NextErr (mkApiError "Error authenticating user" 401 (VStr msg))
     end, w).
Proof.
  intros Htok Hne. unfold authMiddleware, SECRET. run. rewrite Htok. simpl.
  apply String.eqb_neq in Hne. rewrite Hne.
  destruct (jwt_verify t _ (now w)) as [[msg | decoded] | msg]; reflexivity.
Qed.

(** The two ways the guard ends. *)
Lemma authMiddleware_cases `{Jwt} (req : Request) (w : World) :
  (exists decoded, authMiddleware req w = (Next (set_user req decoded), w)) \/
  (exists msg errs, authMiddleware req w = (NextErr (mkApiError msg 401 errs), w)).
Proof.
  destruct (no_token (extract_token (headers req !! "authorization"))) eqn:Hno.
  - right. rewrite (authMiddleware_no_token _ _ Hno). eauto.
  - assert (exists t, extract_token (headers req !! "authorization") = Some t /\ t <> "")
      as (t & Htok & Hne).
    { destruct (extract_token _) as [t |]; [| discriminate].
      exists t. split; [reflexivity |]. simpl in Hno. now apply String.eqb_neq. }
    rewrite (authMiddleware_verifies _ _ _ Htok Hne).
    destruct (jwt_verify t _ (now w)) as [[msg | decoded] | msg]; eauto.
Qed.

(** C10: the guard ends in one of three ways and in no other.  It
    attaches to the request what [jwt.verify] decoded from the second
    segment of the authorization header under [SECRET] and calls [next()]
    with no error; or, finding no such segment, it calls [next] with the
    [ApiError] "Token not found" of status 401; or, [jwt.verify] having
    answered with an error or thrown, it calls [next] with the [ApiError]
    "Error authenticating user" of status 401 that carries the message.
    It sends no response of its own, produces no other status, lets no
    exception out and leaves the world as it was. *)
Theorem authMiddleware_next_or_401 `{Jwt} (req : Request) (w : World) :
  (exists token decoded,
     extract_token (headers req !! "authorization") = Some token /\ token <> "" /\
     jwt_verify token (Some (SECRET (env w))) (now w) = Ok (inr decoded) /\
     authMiddleware req w = (Next (set_user req decoded), w)) \/
  (no_token (extract_token (headers req !! "authorization")) = true /\
   authMiddleware req w =
     (NextErr (mkApiError "Token not found" 401
                 (VObj [("token", VStr "Token not found")])), w)) \/
  (exists token msg,
     extract_token (headers req !! "authorization") = Some token /\ token <> "" /\
     (jwt_verify token (Some (SECRET (env w))) (now w) = Ok (inl msg) \/
      jwt_verify token (Some (SECRET (env w))) (now w) = Throw msg) /\
     authMiddleware req w =
       (NextErr (mkApiError "Error authenticating user" 401 (VStr msg)), w)).
Proof.
  destruct (no_token (extract_token (headers req !! "authorization"))) eqn:Hno.
  - right. left. split; [reflexivity |]. now apply authMiddleware_no_token.
  - assert (exists t, extract_token (headers req !! "authorization") = Some t /\ t <> "")
      as (t & Htok & Hne).
    { destruct (extract_token _) as [t |]; [| discriminate].
      exists t. split; [reflexivity |]. simpl in Hno. now apply String.eqb_neq. }
    rewrite (authMiddleware_verifies _ _ _ Htok Hne).
    destruct (jwt_verify t _ (now w)) as [[msg | decoded] | msg] eqn:Hv.
    + right. right. exists t, msg. auto.
    + left. exists t, decoded. auto.
    + right. right. exists t, msg. auto.
Qed.

(** C6: when the guard rejects a request of the protected route (it
    calls [next] with an error), the request ends there with a 401
    response, and [getAll], the handler behind the guard, is not invoked. *)
Theorem rejected_never_reaches_handler `{Jwt} (findAllUsers : Db -> Outcome JsVal)
    (req : Request) (w w' : World) (err : ApiError) :
  authMiddleware req w = (NextErr err, w') ->
  dispatch (profile_route findAllUsers) req w =
    (["authMiddleware"], mkResponse 401 (ErrorPage (message err)), w').
Proof.
  intros E.
  assert (status err = 401) as Hst.
  { destruct (authMiddleware_cases req w) as [[decoded E'] | (msg & errs & E')];
      rewrite E' in E; inversion E; reflexivity. }
  unfold profile_route. simpl. rewrite E.
  unfold default_error_handler. rewrite Hst. reflexivity.
Qed.

Lemma rejected_never_reaches_handler_witness :
  @authMiddleware Demo.jwt (Demo.get (Some "Bearer forged")) (Demo.world Demo.alice_db) =
    (NextErr (mkApiError "Error authenticating user" 401 (VStr "invalid signature")),
     Demo.world Demo.alice_db) /\
  dispatch (@profile_route Demo.jwt Demo.findAllUsers)
    (Demo.get (Some "Bearer forged")) (Demo.world Demo.alice_db) =
    (["authMiddleware"], mkResponse 401 (ErrorPage "Error authenticating user"),
     Demo.world Demo.alice_db).
Proof.
  split; [reflexivity |].
  apply (@rejected_never_reaches_handler Demo.jwt Demo.findAllUsers
           (Demo.get (Some "Bearer forged")) (Demo.world Demo.alice_db)
           (Demo.world Demo.alice_db)
           (mkApiError "Error authenticating user" 401 (VStr "invalid signature"))).
  reflexivity.
Defined.

(** The handler behind the guard runs only on a verified token. *)
Lemma handler_runs_only_when_verified `{Jwt} (findAllUsers : Db -> Outcome JsVal)
    (req : Request) (w : World) :
  In "getAll" (fst (fst (dispatch (profile_route findAllUsers) req w))) ->
  exists decoded, authMiddleware req w = (Next (set_user req decoded), w).
Proof.
  intros Hin.
  destruct (authMiddleware_cases req w) as [[decoded E] | (msg & errs & E)]; [eauto |].
  unfold profile_route in Hin. simpl in Hin. rewrite E in Hin. simpl in Hin.
  destruct Hin as [Hin | []]. discriminate.
Qed.

(** ** The protected listing *)

(** C9: whenever the repository returns an array, [getAll] answers 200
    with that array, so the 404 branch is not taken; an empty table is an
    empty array and gives 200 with the empty list. *)
Theorem getAll_array_is_200 (findAllUsers : Db -> Outcome JsVal)
    (req : Request) (w : World) (items : list JsVal) :
  findAllUsers (db w) = Ok (VArr items) ->
  getAll findAllUsers req w = (Send 200 (VArr items), w).
Proof. intros E. unfold getAll. run. rewrite E. reflexivity. Qed.

Lemma getAll_array_is_200_witness :
  Demo.findAllUsers (db (Demo.world Demo.empty_db)) = Ok (VArr []) /\
  getAll Demo.findAllUsers (Demo.get None) (Demo.world Demo.empty_db) =
    (Send 200 (VArr []), Demo.world Demo.empty_db).
Proof.
  split; [reflexivity |].
  apply (getAll_array_is_200 Demo.findAllUsers (Demo.get None)
           (Demo.world Demo.empty_db) []).
  reflexivity.
Defined.

(** The 404 branch is the branch of the falsy results. *)
Lemma getAll_404_iff_falsy (findAllUsers : Db -> Outcome JsVal)
    (req : Request) (w : World) :
  (exists err, getAll findAllUsers req w = (NextErr err, w) /\ status err = 404) <->
  (exists users, findAllUsers (db w) = Ok users /\ truthy users = false).
Proof.
  unfold getAll. run. split.
  - intros (err & E & Hst). destruct (findAllUsers (db w)) as [users | msg].
    + exists users. split; [reflexivity |].
      destruct (truthy users); [discriminate | reflexivity].
    + inversion E; subst. discriminate.
  - intros (users & E & Hf). rewrite E, Hf. simpl. eauto.
Qed.

Lemma getAll_null_or_undefined_is_404 (findAllUsers : Db -> Outcome JsVal)
    (req : Request) (w : World) (users : JsVal) :
  findAllUsers (db w) = Ok users ->
  users = VNull \/ users = VUndefined ->
  getAll findAllUsers req w =
    (NextErr (mkApiError "Users not found" 404
                (VObj [("users", VStr "Users not found")])), w).
Proof.
  intros E Hv. unfold getAll. run. rewrite E. destruct Hv; subst; reflexivity.
Qed.

(** ** Login *)

Lemma login_absent `{Bcrypt} `{Jwt} (req : Request) (w : World) :
  findUserByEmail (body_email req) (db w) = Ok None ->
  login req w =
    (NextErr (mkApiError "User not found" 404
                (VObj [("email", VStr "User not found")])), w).
Proof. intros E. unfold login. run. rewrite E. reflexivity. Qed.

Lemma login_mismatch `{Bcrypt} `{Jwt} (req : Request) (w : World) (u : User) :
  findUserByEmail (body_email req) (db w) = Ok (Some u) ->
  bcrypt_compare (body_password req) (user_password u) = Ok false ->
  login req w =
    (NextErr (mkApiError "Invalid password" 401
                (VObj [("password", VStr "Invalid password")])), w).
Proof. intros E Hc. unfold login. run. rewrite E, Hc. reflexivity. Qed.

Lemma login_match `{Bcrypt} `{Jwt} (req : Request) (w : World) (u : User) :
  findUserByEmail (body_email req) (db w) = Ok (Some u) ->
  bcrypt_compare (body_password req) (user_password u) = Ok true ->
  login req w =
    (match jwt_sign (VObj [("id", VNum (user_id u))]) (Some (SECRET (env w))) "1h" (now w) with
     | Ok token =>
         Send 200 (VObj [("message", VStr "User logged in successfully");
                         ("token", VStr token)])
     | Throw msg => NextErr (mkApiError "Error logging in" 400 (VStr msg))
     end, w).
Proof.
  intros E Hc. unfold login. run. rewrite E, Hc. simpl.
  destruct (jwt_sign _ _ _ _); reflexivity.
Qed.

(** The guide's login answers both failures alike. *)
Lemma login_guide_indistinguishable `{Bcrypt} `{Jwt} `{UserModel}
    (req1 req2 : Request) (w1 w2 : World) (u : User) :
  body_email req1 <> "" -> body_password req1 <> "" ->
  body_email req2 <> "" -> body_password req2 <> "" ->
  findOne (body_email req1) (db w1) = Ok None ->
  findOne (body_email req2) (db w2) = Ok (Some u) ->
  bcrypt_compare (body_password req2) (user_password u) = Ok false ->
  fst (login_guide req1 w1) = fst (login_guide req2 w2).
Proof.
  intros He1 Hp1 He2 Hp2 E1 E2 Hc.
  apply String.eqb_neq in He1, Hp1, He2, Hp2.
  unfold login_guide, compararSenha, is_empty. run.
  rewrite He1, Hp1, He2, Hp2. simpl. rewrite E1, E2. simpl.
  rewrite Hc. reflexivity.
Qed.

Example login_guide_same_answer :
  fst (@login_guide Demo.bcrypt Demo.jwt Demo.model
         (Demo.post "" "bob@x.com" "Secret123!") (Demo.world Demo.alice_db)) =
    Send 401 (VObj [("message", VStr "Credenciais inválidas")]) /\
  fst (@login_guide Demo.bcrypt Demo.jwt Demo.model
         (Demo.post "" "alice@x.com" "guess") (Demo.world Demo.alice_db)) =
    Send 401 (VObj [("message", VStr "Credenciais inválidas")]).
Proof. split; reflexivity. Qed.

(** C1 (fails on the code): on a table that holds alice only, a login
    for an unknown address ends in 404 "User not found", a login for
    alice with a wrong password in 401 "Invalid password": the two
    failures differ in status code and in body. *)
Theorem login_tells_unknown_from_wrong_password :
  dispatch (@login_route Demo.bcrypt Demo.jwt)
    (Demo.post "" "bob@x.com" "Secret123!") (Demo.world Demo.alice_db) =
    (["login"], mkResponse 404 (ErrorPage "User not found"), Demo.world Demo.alice_db) /\
  dispatch (@login_route Demo.bcrypt Demo.jwt)
    (Demo.post "" "alice@x.com" "guess") (Demo.world Demo.alice_db) =
    (["login"], mkResponse 401 (ErrorPage "Invalid password"), Demo.world Demo.alice_db).
Proof. split; reflexivity. Qed.

(** ** Registration *)

Lemma find_email_some (email : string) (d : Db) (u : User) :
  findUserByEmail email d = Ok (Some u) ->
  outage d = None /\ In u (rows d) /\ user_email u = email.
Proof.
  unfold findUserByEmail. destruct (outage d); [discriminate |].
  intros E. inversion E as [Hf]. apply find_some in Hf as [Hin Heq].
  apply String.eqb_eq in Heq. auto.
Qed.

Lemma find_email_none (email : string) (d : Db) :
  findUserByEmail email d = Ok None ->
  outage d = None /\ ~ known_email email d /\
  existsb (fun u => String.eqb (user_email u) email) (rows d) = false.
Proof.
  unfold findUserByEmail. destruct (outage d); [discriminate |].
  intros E. inversion E as [Hf]. split; [reflexivity |]. split.
  - intros (u & Hin & Heq). apply (find_none _ _ Hf) in Hin.
    apply String.eqb_neq in Hin. contradiction.
  - destruct (existsb _ (rows d)) eqn:Hex; [| reflexivity].
    apply existsb_exists in Hex as (u & Hin & Heq).
    apply (find_none _ _ Hf) in Hin. congruence.
Qed.

Lemma find_email_reachable (email : string) (d : Db) :
  outage d = None ->
  (exists u, findUserByEmail email d = Ok (Some u)) \/
  findUserByEmail email d = Ok None.
Proof.
  intros Ho. unfold findUserByEmail. rewrite Ho.
  destruct (List.find _ (rows d)); eauto.
Qed.

Lemma signUp_duplicate `{Bcrypt} (req : Request) (w : World) (u : User) :
  findUserByEmail (body_email req) (db w) = Ok (Some u) ->
  signUp req w = (NextErr already_exists, w).
Proof. intros E. unfold signUp. run. rewrite E. reflexivity. Qed.

(** What a registration that gets past the duplicate check ends with. *)
Lemma signUp_fresh `{Bcrypt} (req : Request) (w : World) :
  findUserByEmail (body_email req) (db w) = Ok None ->
  (exists salt digest,
     bcrypt_genSalt (Some (num_or (parseInt (env w !! "SALT_ROUNDS")) 10))
       (hd "" (entropy w)) = Ok salt /\
     bcrypt_hash (body_password req) salt = Ok digest /\
     fst (signUp req w) =
       created (mkUser (next_id (db w)) (body_name req) (body_email req) digest)) \/
  (exists msg, fst (signUp req w) =
     NextErr (mkApiError "Error creating user" 400 (VStr msg))).
Proof.
  intros E. destruct (find_email_none _ _ E) as (Ho & _ & Hex).
  unfold signUp, insertUser. run. rewrite E. simpl.
  destruct (bcrypt_genSalt _ _) as [salt | msg] eqn:Hs; simpl; [| eauto].
  destruct (bcrypt_hash _ salt) as [digest | msg] eqn:Hh; simpl; [| eauto].
  rewrite Ho, Hex. simpl. left. exists salt, digest. auto.
Qed.


Lemma register_guide_duplicate `{Bcrypt} `{UserModel} (req : Request) (w : World) (u : User) :
  body_name req <> "" -> body_email req <> "" -> body_password req <> "" ->
  findOne (body_email req) (db w) = Ok (Some u) ->
  register req w = (Send 409 (VObj [("message", VStr "Email já em uso")]), w).
Proof.
  intros Hn He Hp E. apply String.eqb_neq in Hn, He, Hp.
  unfold register, is_empty. run. rewrite Hn, He, Hp. simpl. rewrite E. reflexivity.
Qed.

(** C2 (fails on the code): the body of a successful registration holds
    the whole inserted row, and its [password] field is the digest that
    was stored. *)
Theorem signUp_response_carries_digest :
  exists digest,
    PasswordHasher.hash Demo.derive "Secret123!" 10 "saltsaltsaltsaltsaltsa" = Ok digest /\
    fst (@signUp Demo.bcrypt (Demo.post "alice" "alice@x.com" "Secret123!")
           (Demo.world Demo.empty_db)) =
      Send 201 (VObj [("message", VStr "User created successfully");
                      ("user", VArr [VObj [("id", VNum 1); ("name", VStr "alice");
                                           ("email", VStr "alice@x.com");
                                           ("password", VStr digest)]])]).
Proof. eexists. split; reflexivity. Qed.

(** C5 (fails on the code): a registration for an address that is already
    stored ends in status 400, not 409. *)
Theorem signUp_duplicate_is_400 :
  dispatch (@register_route Demo.bcrypt)
    (Demo.post "alice" "alice@x.com" "Other456!") (Demo.world Demo.alice_db) =
    (["signUp"], mkResponse 400 (ErrorPage "User already exists"),
     Demo.world Demo.alice_db).
Proof. reflexivity. Qed.

(** ** The login key *)





(** ** The secret key *)

Lemma SECRET_default (e : gmap string string) :
  secret_missing e -> SECRET e = "secret".
Proof. unfold SECRET. intros [E | E]; rewrite E; reflexivity. Qed.

Lemma SECRET_configured (e : gmap string string) (k : string) :
  k <> "" -> SECRET (<["JWT_SECRET" := k]> e) = k.
Proof.
  intros Hk. unfold SECRET. rewrite lookup_insert_eq. simpl.
  apply String.eqb_neq in Hk. now rewrite Hk.
Qed.

(** The handlers read the environment through [SECRET] only. *)
Lemma login_reads_SECRET `{Bcrypt} `{Jwt} (req : Request) (w1 w2 : World) :
  db w1 = db w2 -> now w1 = now w2 -> SECRET (env w1) = SECRET (env w2) ->
  fst (login req w1) = fst (login req w2).
Proof.
  intros Hd Hn Hs. unfold login. run. rewrite Hd.
  destruct (findUserByEmail _ (db w2)) as [[u |] | msg]; simpl; try reflexivity.
  destruct (bcrypt_compare _ _) as [[|] | msg]; simpl; try reflexivity.
  rewrite Hs, Hn. destruct (jwt_sign _ _ _ _); reflexivity.
Qed.

Lemma authMiddleware_reads_SECRET `{Jwt} (req : Request) (w1 w2 : World) :
  now w1 = now w2 -> SECRET (env w1) = SECRET (env w2) ->
  fst (authMiddleware req w1) = fst (authMiddleware req w2).
Proof.
  intros Hn Hs. unfold authMiddleware. unfold SECRET in Hs. run.
  destruct (no_token _); simpl; [reflexivity |].
  rewrite Hs, Hn. destruct (jwt_verify _ _ _) as [[msg | decoded] | msg]; reflexivity.
Qed.

(** Whatever the libraries: with [JWT_SECRET] missing or empty the key
    is the literal "secret", and login and the guard act on every request
    exactly as they do when [JWT_SECRET] is configured with that value. *)
Theorem missing_secret_defaults `{Bcrypt} `{Jwt} (req : Request) (w : World) :
  secret_missing (env w) ->
  SECRET (env w) = "secret" /\
  fst (login req w) = fst (login req (with_secret w "secret")) /\
  fst (authMiddleware req w) = fst (authMiddleware req (with_secret w "secret")).
Proof.
  intros Hm. pose proof (SECRET_default _ Hm) as Hs.
  assert (SECRET (env w) = SECRET (env (with_secret w "secret"))) as Heq.
  { rewrite Hs. simpl. symmetry. now apply SECRET_configured. }
  split; [exact Hs |]. split.
  - now apply login_reads_SECRET.
  - now apply authMiddleware_reads_SECRET.
Qed.

Lemma missing_secret_defaults_witness :
  secret_missing (env (Demo.world Demo.alice_db)) /\
  SECRET (env (Demo.world Demo.alice_db)) = "secret" /\
  fst (@login Demo.bcrypt Demo.jwt (Demo.post "" "alice@x.com" "Secret123!")
         (Demo.world Demo.alice_db)) =
  fst (@login Demo.bcrypt Demo.jwt (Demo.post "" "alice@x.com" "Secret123!")
         (with_secret (Demo.world Demo.alice_db) "secret")) /\
  fst (@authMiddleware Demo.jwt (Demo.post "" "alice@x.com" "Secret123!")
         (Demo.world Demo.alice_db)) =
  fst (@authMiddleware Demo.jwt (Demo.post "" "alice@x.com" "Secret123!")
         (with_secret (Demo.world Demo.alice_db) "secret")).
Proof.
  assert (secret_missing (env (Demo.world Demo.alice_db))) as Hm
    by (left; reflexivity).
  split; [exact Hm |].
  exact (@missing_secret_defaults Demo.bcrypt Demo.jwt
           (Demo.post "" "alice@x.com" "Secret123!") (Demo.world Demo.alice_db) Hm).
Defined.

(** C3 (fails on the code): with no [JWT_SECRET] in the environment a
    login is answered with a token, signed with the default key "secret",
    and the guard verifies a token against that default key and lets it
    in; nothing fails for want of a secret. *)
Theorem missing_secret_still_signs_and_verifies :
  env (Demo.world Demo.alice_db) !! "JWT_SECRET" = None /\
  fst (@login Demo.bcrypt Demo.jwt (Demo.post "" "alice@x.com" "Secret123!")
         (Demo.world Demo.alice_db)) =
    Send 200 (VObj [("message", VStr "User logged in successfully");
                    ("token", VStr "signed-with:secret")]) /\
  fst (@authMiddleware Demo.jwt (Demo.get (Some "Bearer signed-with:secret"))
         (Demo.world Demo.alice_db)) =
    Next (set_user (Demo.get (Some "Bearer signed-with:secret")) (VObj [("id", VNum 1)])).
Proof. repeat split; reflexivity. Qed.

(** ** The shape of the authorization header *)

Lemma split_nonempty (sep : ascii) (s : string) : split sep s <> [].
Proof.
  induction s as [| c rest IH]; simpl; [discriminate |].
  destruct (Ascii.eqb c sep); [discriminate |].
  destruct (split sep rest); [contradiction | discriminate].
Qed.

Lemma split_no_space (s : string) : no_space s = true -> split " " s = [s].
Proof.
  induction s as [| c rest IH]; simpl; [reflexivity |].
  intros Hn. apply andb_true_iff in Hn as [Hc Hr].
  apply negb_true_iff in Hc. rewrite Hc, (IH Hr). reflexivity.
Qed.

Lemma split_at_first_space (a b : string) :
  no_space a = true -> split " " (a ++ String " " b) = a :: split " " b.
Proof.
  induction a as [| c rest IH]; simpl; [reflexivity |].
  intros Hn. apply andb_true_iff in Hn as [Hc Hr].
  apply negb_true_iff in Hc. rewrite Hc, (IH Hr). reflexivity.
Qed.

Lemma append_space_not_empty (a b : string) : String.eqb (a ++ String " " b) "" = false.
Proof. destruct a; reflexivity. Qed.

(** The guard reads the second segment, whatever the first one is and
    whatever follows the second. *)
Lemma extract_token_second_segment (scheme token : string) :
  no_space scheme = true -> no_space token = true ->
  extract_token (Some (scheme ++ " " ++ token)) = Some token /\
  forall extra, extract_token (Some (scheme ++ " " ++ token ++ " " ++ extra)) = Some token.
Proof.
  intros Hs Ht. unfold extract_token. split; [| intros extra].
  - change (scheme ++ " " ++ token) with (scheme ++ String " " token).
    rewrite append_space_not_empty, (split_at_first_space _ _ Hs), (split_no_space _ Ht).
    reflexivity.
  - change (scheme ++ " " ++ token ++ " " ++ extra)
      with (scheme ++ String " " (token ++ String " " extra)).
    rewrite append_space_not_empty, (split_at_first_space _ _ Hs),
      (split_at_first_space _ _ Ht).
    reflexivity.
Qed.

Lemma authMiddleware_ignores_scheme `{Jwt} (scheme token : string)
    (req : Request) (w : World) (decoded : JsVal) :
  no_space scheme = true -> no_space token = true -> token <> "" ->
  headers req !! "authorization" = Some (scheme ++ " " ++ token) ->
  jwt_verify token (Some (SECRET (env w))) (now w) = Ok (inr decoded) ->
  authMiddleware req w = (Next (set_user req decoded), w).
Proof.
  intros Hs Ht Hne Hh Hv.
  destruct (extract_token_second_segment _ _ Hs Ht) as [Hx _].
  rewrite <- Hh in Hx. rewrite (authMiddleware_verifies _ _ _ Hx Hne), Hv. reflexivity.
Qed.

(** The guide's guard answers 401 to a scheme other than Bearer, without
    looking at the token. *)
Lemma guide_middleware_checks_scheme `{Jwt} (scheme token : string)
    (req : Request) (w : World) :
  no_space scheme = true -> no_space token = true -> scheme <> "Bearer" ->
  headers req !! "authorization" = Some (scheme ++ " " ++ token) ->
  guide_middleware req w = (Send 401 (VObj [("message", VStr "Token inválido")]), w).
Proof.
  intros Hs Ht Hne Hh. unfold guide_middleware, is_empty. run. rewrite Hh.
  change (scheme ++ " " ++ token) with (scheme ++ String " " token).
  rewrite append_space_not_empty, (split_at_first_space _ _ Hs), (split_no_space _ Ht).
  apply String.eqb_neq in Hne. rewrite Hne. reflexivity.
Qed.

Lemma guide_middleware_checks_segments `{Jwt} (scheme token extra : string)
    (req : Request) (w : World) :
  no_space scheme = true -> no_space token = true ->
  headers req !! "authorization" = Some (scheme ++ " " ++ token ++ " " ++ extra) ->
  guide_middleware req w = (Send 401 (VObj [("message", VStr "Token inválido")]), w).
Proof.
  intros Hs Ht Hh. unfold guide_middleware, is_empty. run. rewrite Hh.
  change (scheme ++ " " ++ token ++ " " ++ extra)
    with (scheme ++ String " " (token ++ String " " extra)).
  rewrite append_space_not_empty, (split_at_first_space _ _ Hs),
    (split_at_first_space _ _ Ht).
  pose proof (split_nonempty " " extra) as Hx.
  destruct (split " " extra); [contradiction | reflexivity].
Qed.

(** C4 (fails on the code): a header with the scheme Basic, and a header
    with three segments, get through the guard when their second segment
    is a token that verifies: the handler behind the guard runs and
    answers 200.  A missing header and a header with no second segment
    are turned away with 401 "Token not found". *)
Theorem guard_reads_second_segment_only :
  dispatch (@profile_route Demo.jwt Demo.findAllUsers)
    (Demo.get (Some "Basic signed-with:secret")) (Demo.world Demo.empty_db) =
    (["authMiddleware"; "getAll"], mkResponse 200 (JsonBody (VArr [])),
     Demo.world Demo.empty_db) /\
  dispatch (@profile_route Demo.jwt Demo.findAllUsers)
    (Demo.get (Some "Bearer signed-with:secret and more")) (Demo.world Demo.empty_db) =
    (["authMiddleware"; "getAll"], mkResponse 200 (JsonBody (VArr [])),
     Demo.world Demo.empty_db) /\
  dispatch (@profile_route Demo.jwt Demo.findAllUsers)
    (Demo.get None) (Demo.world Demo.empty_db) =
    (["authMiddleware"], mkResponse 401 (ErrorPage "Token not found"),
     Demo.world Demo.empty_db) /\
  dispatch (@profile_route Demo.jwt Demo.findAllUsers)
    (Demo.get (Some "Bearer ")) (Demo.world Demo.empty_db) =
    (["authMiddleware"], mkResponse 401 (ErrorPage "Token not found"),
     Demo.world Demo.empty_db).
Proof. repeat split; reflexivity. Qed.

(** ** The password hasher *)

Lemma fit_length (n : nat) (seed : string) : String.length (PasswordHasher.fit n seed) = n.
Proof.
  revert seed. induction n as [| n IH]; intros seed; simpl; [reflexivity |].
  destruct seed; simpl; now rewrite IH.
Qed.

Lemma digit_roundtrip (d : Z) :
  0 <= d <= 9 -> PasswordHasher.digit_of (PasswordHasher.digit d) = Some d.
Proof.
  intros Hd.
  assert (d = 0 \/ d = 1 \/ d = 2 \/ d = 3 \/ d = 4 \/ d = 5 \/ d = 6 \/ d = 7
          \/ d = 8 \/ d = 9) as Hc by lia.
  repeat (destruct Hc as [-> | Hc]; [reflexivity |]). subst. reflexivity.
Qed.

Lemma salt_shape (c : Z) (seed : string) :
  "$2b$" ++ PasswordHasher.two_digits c ++ "$" ++ PasswordHasher.fit 22 seed =
  String "$" (String "2" (String "b" (String "$"
    (String (PasswordHasher.digit (c / 10)) (String (PasswordHasher.digit (c mod 10))
      (String "$" (PasswordHasher.fit 22 seed))))))).
Proof. reflexivity. Qed.

Lemma parse_salt_genSalt (c : Z) (seed : string) :
  PasswordHasher.cost_ok c = true ->
  PasswordHasher.parse_salt
    ("$2b$" ++ PasswordHasher.two_digits c ++ "$" ++ PasswordHasher.fit 22 seed) =
    Some (c, PasswordHasher.fit 22 seed).
Proof.
  intros Hc. unfold PasswordHasher.cost_ok in Hc.
  apply andb_true_iff in Hc as [Hlo Hhi].
  apply Z.leb_le in Hlo, Hhi.
  assert (0 <= c / 10 <= 9) as H1
    by (split; [apply Z.div_pos; lia | apply Z.div_le_upper_bound; lia]).
  assert (0 <= c mod 10 <= 9) as H0 by (pose proof (Z.mod_pos_bound c 10); lia).
  assert (10 * (c / 10) + c mod 10 = c) as Hdm by (symmetry; apply Z.div_mod; lia).
  rewrite salt_shape. unfold PasswordHasher.parse_salt. cbv beta iota.
  rewrite (digit_roundtrip _ H1), (digit_roundtrip _ H0), Hdm.
  unfold PasswordHasher.cost_ok.
  rewrite (proj2 (Z.leb_le 4 c) Hlo), (proj2 (Z.leb_le c 31) Hhi), fit_length.
  reflexivity.
Qed.

Lemma substring_prefix (a b : string) :
  substring 0 (String.length a) (a ++ b) = a.
Proof.
  induction a as [| c rest IH]; simpl; [now destruct b |]. now rewrite IH.
Qed.

Lemma genSalt_length (c : Z) (seed : string) :
  String.length ("$2b$" ++ PasswordHasher.two_digits c ++ "$" ++ PasswordHasher.fit 22 seed)
  = 29%nat.
Proof. rewrite salt_shape. cbn [String.length]. now rewrite fit_length. Qed.

Lemma hasher_roundtrip (derive : string -> string -> string)
    (p : string) (c : Z) (seed : string) :
  PasswordHasher.cost_ok c = true ->
  (String.length p <= PasswordHasher.input_ceiling)%nat ->
  exists digest,
    PasswordHasher.hash derive p c seed = Ok digest /\
    PasswordHasher.verify derive p digest = Ok true.
Proof.
  intros Hc Hlen.
  set (salt := "$2b$" ++ PasswordHasher.two_digits c ++ "$" ++ PasswordHasher.fit 22 seed).
  exists (salt ++ derive p salt).
  assert (PasswordHasher.parse_salt salt = Some (c, PasswordHasher.fit 22 seed)) as Hp
    by (apply parse_salt_genSalt; exact Hc).
  assert (substring 0 29 (salt ++ derive p salt) = salt) as Hsub.
  { rewrite <- (genSalt_length c seed). apply substring_prefix. }
  split.
  - unfold PasswordHasher.hash, PasswordHasher.genSalt. rewrite Hc.
    fold salt. unfold PasswordHasher.hash_with_salt.
    apply Nat.ltb_ge in Hlen. rewrite Hlen, Hp. reflexivity.
  - unfold PasswordHasher.verify. rewrite Hsub, Hp, String.eqb_refl. reflexivity.
Qed.

(** The guide's service: comparing a password with what [hashSenha] made
    of it answers true. *)
Lemma compararSenha_of_hashSenha (derive : string -> string -> string)
    (senha : string) (c : Z) (w : World) :
  saltRounds (env w) = Some c ->
  PasswordHasher.cost_ok c = true ->
  (String.length senha <= PasswordHasher.input_ceiling)%nat ->
  exists digest w',
    @hashSenha (PasswordHasher.bcrypt derive) senha w = (Ok digest, w') /\
    @compararSenha (PasswordHasher.bcrypt derive) senha digest w' = (Ok true, w').
Proof.
  intros Hr Hc Hlen.
  destruct (hasher_roundtrip derive senha c (hd "" (entropy w)) Hc Hlen)
    as (digest & Hh & Hv).
  exists digest. eexists. unfold hashSenha, compararSenha. run. rewrite Hr.
  unfold PasswordHasher.hash in Hh.
  destruct (PasswordHasher.genSalt (Some c) _) as [salt | msg]; [| discriminate].
  simpl. rewrite Hh, Hv. split; reflexivity.
Qed.




(** * Further properties of the controllers, the repository and the guide *)

(** ** Login *)

(** X1: a login is answered with a token only after the record stored
    under exactly the received address was found and [bcrypt.compare]
    answered true for the received password; the token is the one signed
    for that record's id with [SECRET], for one hour, and the world is
    left as it was. *)
Theorem login_token_only_after_check `{Bcrypt} `{Jwt}
    (req : Request) (w w' : World) (code : Z) (body : JsVal) :
  login req w = (Send code body, w') ->
  exists u token,
    In u (rows (db w)) /\ user_email u = body_email req /\
    bcrypt_compare (body_password req) (user_password u) = Ok true /\
    jwt_sign (VObj [("id", VNum (user_id u))]) (Some (SECRET (env w))) "1h" (now w)
      = Ok token /\
    Send code body = logged_in token /\ w' = w.
Proof.
  intros E.
  destruct (findUserByEmail (body_email req) (db w)) as [[u |] | msg] eqn:Ef.
  - destruct (find_email_some _ _ _ Ef) as (_ & Hin & Heq).
    destruct (bcrypt_compare (body_password req) (user_password u)) as [[|] | msg] eqn:Ec.
    + rewrite (login_match _ _ _ Ef Ec) in E.
      destruct (jwt_sign _ _ _ _) as [token | msg] eqn:Es; inversion E; subst.
      exists u, token. auto 10.
    + rewrite (login_mismatch _ _ _ Ef Ec) in E. discriminate.
    + revert E. unfold login. run. rewrite Ef. simpl. rewrite Ec. discriminate.
  - rewrite (login_absent _ _ Ef) in E. discriminate.
  - revert E. unfold login. run. rewrite Ef. discriminate.
Qed.

Lemma login_token_only_after_check_witness :
  @login Demo.bcrypt Demo.jwt (Demo.post "" "alice@x.com" "Secret123!")
    (Demo.world Demo.alice_db) =
    (Send 200 (VObj [("message", VStr "User logged in successfully");
                     ("token", VStr "signed-with:secret")]),
     Demo.world Demo.alice_db) /\
  exists u token,
    In u (rows Demo.alice_db) /\ user_email u = "alice@x.com" /\
    PasswordHasher.verify Demo.derive "Secret123!" (user_password u) = Ok true /\
    @jwt_sign Demo.jwt (VObj [("id", VNum (user_id u))]) (Some "secret") "1h" 1000
      = Ok token /\
    Send 200 (VObj [("message", VStr "User logged in successfully");
                    ("token", VStr "signed-with:secret")]) = logged_in token /\
    Demo.world Demo.alice_db = Demo.world Demo.alice_db.
Proof.
  split; [reflexivity |].
  apply (@login_token_only_after_check Demo.bcrypt Demo.jwt
           (Demo.post "" "alice@x.com" "Secret123!") (Demo.world Demo.alice_db)
           (Demo.world Demo.alice_db) 200
           (VObj [("message", VStr "User logged in successfully");
                  ("token", VStr "signed-with:secret")])).
  reflexivity.
Defined.

(** X2: whatever the request and whatever the libraries and the database
    do, a login ends in one of four ways: 200 with a token, 404 "User not
    found", 401 "Invalid password", or 400 "Error logging in" carrying the
    message of the exception that was caught; it never writes to the
    world. *)
Theorem login_ends_in_four_ways `{Bcrypt} `{Jwt} (req : Request) (w : World) :
  snd (login req w) = w /\
  ((exists token, fst (login req w) = logged_in token) \/
   fst (login req w) = NextErr not_found \/
   fst (login req w) =
     NextErr (mkApiError "Invalid password" 401
                (VObj [("password", VStr "Invalid password")])) \/
   (exists msg, fst (login req w) =
      NextErr (mkApiError "Error logging in" 400 (VStr msg)))).
Proof.
  unfold login. run.
  destruct (findUserByEmail _ _) as [[u |] | msg]; simpl; [| auto | eauto 6].
  destruct (bcrypt_compare _ _) as [[|] | msg]; simpl; [| auto 6 | eauto 6].
  destruct (jwt_sign _ _ _ _) as [token | msg]; simpl; eauto 6.
Qed.

(** ** Registration *)

Lemma signUp_effect `{Bcrypt} (req : Request) (w : World) :
  (exists u,
     fst (signUp req w) = created u /\
     rows (db (snd (signUp req w))) = (rows (db w) ++ [u])%list /\
     next_id (db (snd (signUp req w))) = next_id (db w) + 1 /\
     outage (db (snd (signUp req w))) = None /\
     user_id u = next_id (db w) /\
     user_name u = body_name req /\
     user_email u = body_email req /\
     ~ known_email (body_email req) (db w)) \/
  (exists err,
     fst (signUp req w) = NextErr err /\ status err = 400 /\
     db (snd (signUp req w)) = db w).
Proof.
  destruct (findUserByEmail (body_email req) (db w)) as [[u |] | msg] eqn:Ef.
  - right. rewrite (signUp_duplicate _ _ _ Ef). simpl. eauto.
  - destruct (find_email_none _ _ Ef) as (Ho & Hnk & Hex).
    unfold signUp, insertUser. run. rewrite Ef. simpl.
    destruct (bcrypt_genSalt _ _) as [salt | msg]; simpl; [| right; eauto].
    destruct (bcrypt_hash _ salt) as [digest | msg]; simpl; [| right; eauto].
    rewrite Ho, Hex. simpl. left. eexists. repeat split; try reflexivity. exact Hnk.
  - right. unfold signUp. run. rewrite Ef. simpl. eauto.
Qed.

(** X3: a registration either answers 201 and appends exactly one record
    to the table, with the next identifier, the received name and address,
    under an address no record had, or it ends in an error of status 400
    and leaves the table untouched. *)
Theorem signUp_writes_one_row_or_nothing `{Bcrypt} (req : Request) (w : World) :
  (exists u,
     fst (signUp req w) = created u /\
     rows (db (snd (signUp req w))) = (rows (db w) ++ [u])%list /\
     next_id (db (snd (signUp req w))) = next_id (db w) + 1 /\
     outage (db (snd (signUp req w))) = None /\
     user_id u = next_id (db w) /\
     user_name u = body_name req /\
     user_email u = body_email req /\
     ~ known_email (body_email req) (db w)) \/
  (exists err,
     fst (signUp req w) = NextErr err /\ status err = 400 /\
     db (snd (signUp req w)) = db w).
Proof. exact (signUp_effect req w). Qed.

(** *** Lists *)

Lemma find_app_split {A : Type} (f : A -> bool) (l k : list A) :
  List.find f (l ++ k) =
  match List.find f l with
  | Some x => Some x
  | None => List.find f k
  end.
Proof.
  induction l as [| a l IH]; simpl; [reflexivity |].
  destruct (f a); [reflexivity | exact IH].
Qed.

Lemma NoDup_snoc_fresh {A : Type} (l : list A) (x : A) :
  List.NoDup l -> ~ In x l -> List.NoDup (l ++ [x]).
Proof.
  induction l as [| a l IH]; simpl; intros Hnd Hnin.
  - constructor; [simpl; tauto | constructor].
  - apply List.NoDup_cons_iff in Hnd as [Ha Hl].
    apply List.NoDup_cons_iff. split.
    + rewrite in_app_iff. simpl. intros [Hin | [Heq | []]]; [tauto |].
      subst. tauto.
    + apply IH; tauto.
Qed.

Lemma in_map_email (l : list User) (u : User) :
  In u l -> In (user_email u) (map user_email l).
Proof. apply in_map. Qed.

Lemma not_known_not_in (email : string) (d : Db) :
  ~ known_email email d -> ~ In email (map user_email (rows d)).
Proof.
  intros Hnk Hin. apply in_map_iff in Hin as (u & Heq & Hin).
  apply Hnk. exists u. auto.
Qed.

Lemma created_inj (u v : User) : created u = created v -> u = v.
Proof.
  destruct u, v. unfold created, row_json. simpl. intros E. inversion E. reflexivity.
Qed.

Lemma find_email_known (email : string) (d : Db) :
  outage d = None -> known_email email d ->
  exists u, findUserByEmail email d = Ok (Some u).
Proof.
  intros Ho Hk. destruct (find_email_reachable email d Ho) as [Hs | Hn]; [exact Hs |].
  destruct (find_email_none _ _ Hn) as (_ & Hnk & _). contradiction.
Qed.

(** Appending a record under a fresh address and the next identifier
    keeps the table as the migration wants it. *)
Lemma db_ok_snoc (d : Db) (u : User) :
  db_ok d -> ~ known_email (user_email u) d -> user_id u = next_id d ->
  db_ok (mkDb (rows d ++ [u]) (next_id d + 1) None).
Proof.
  intros (He & Hi & Hlt) Hnk Hid. unfold db_ok. simpl.
  rewrite !map_app. simpl. repeat split.
  - apply NoDup_snoc_fresh; [exact He | now apply not_known_not_in].
  - apply NoDup_snoc_fresh; [exact Hi |].
    intros Hin. apply in_map_iff in Hin as (v & Heq & Hin).
    rewrite List.Forall_forall in Hlt. specialize (Hlt v Hin). lia.
  - apply List.Forall_app. split.
    + eapply List.Forall_impl; [| exact Hlt]. simpl. intros. lia.
    + constructor; [lia | constructor].
Qed.

(** X4: registration keeps the table as the migration wants it:
    addresses stay unique, identifiers stay unique and below the next
    one of the sequence. *)
Theorem signUp_keeps_table_sound `{Bcrypt} (req : Request) (w : World) :
  db_ok (db w) -> db_ok (db (snd (signUp req w))).
Proof.
  intros Hok.
  destruct (signUp_effect req w)
    as [(u & _ & Hr & Hn & Ho & Hid & _ & He & Hnk) | (err & _ & _ & Hd)].
  - destruct (db (snd (signUp req w))) as [rs n o]. simpl in *. subst.
    apply db_ok_snoc; [exact Hok | now rewrite He | exact Hid].
  - now rewrite Hd.
Qed.

Lemma signUp_keeps_table_sound_witness :
  db_ok Demo.alice_db /\
  db_ok (db (snd (@signUp Demo.bcrypt (Demo.post "bob" "bob@x.com" "Hunter22!")
                     (Demo.world Demo.alice_db)))).
Proof.
  assert (db_ok Demo.alice_db) as Hok.
  { unfold db_ok. simpl. repeat split; repeat constructor; simpl; try tauto. }
  split; [exact Hok |].
  apply (@signUp_keeps_table_sound Demo.bcrypt
           (Demo.post "bob" "bob@x.com" "Hunter22!") (Demo.world Demo.alice_db)).
  exact Hok.
Defined.

(** X5: once a registration has answered 201, a further registration
    under the same address, whatever its name and password, ends in
    "User already exists" and writes nothing. *)
Theorem signUp_same_address_again `{Bcrypt} (req req2 : Request) (w : World) (u : User) :
  fst (signUp req w) = created u ->
  body_email req2 = body_email req ->
  signUp req2 (snd (signUp req w)) = (NextErr already_exists, snd (signUp req w)).
Proof.
  intros Hc He2.
  destruct (signUp_effect req w)
    as [(u0 & Hf & Hr & _ & Ho & _ & _ & He & _) | (err & Hf & _)];
    [| rewrite Hf in Hc; discriminate].
  assert (known_email (body_email req2) (db (snd (signUp req w)))) as Hk.
  { exists u0. rewrite Hr, in_app_iff, He2. simpl. auto. }
  destruct (find_email_known _ _ Ho Hk) as [v Hv].
  apply (signUp_duplicate _ _ _ Hv).
Qed.

Lemma signUp_same_address_again_witness :
  fst (@signUp Demo.bcrypt (Demo.post "alice" "alice@x.com" "Secret123!")
         (Demo.world Demo.empty_db)) = created Demo.alice /\
  fst (@signUp Demo.bcrypt (Demo.post "mallory" "alice@x.com" "Other456!")
         (snd (@signUp Demo.bcrypt (Demo.post "alice" "alice@x.com" "Secret123!")
                 (Demo.world Demo.empty_db)))) = NextErr already_exists.
Proof.
  split; [reflexivity |].
  rewrite (@signUp_same_address_again Demo.bcrypt
             (Demo.post "alice" "alice@x.com" "Secret123!")
             (Demo.post "mallory" "alice@x.com" "Other456!")
             (Demo.world Demo.empty_db) Demo.alice); reflexivity.
Defined.

(** *** Registration and then login, with the hasher of the spec *)

Lemma parse_salt_length (s : string) (x : Z * string) :
  PasswordHasher.parse_salt s = Some x -> String.length s = 29%nat.
Proof.
  unfold PasswordHasher.parse_salt. intros E.
  repeat match type of E with
         | match ?t with _ => _ end = Some _ => destruct t eqn:?; try discriminate
         end.
  match goal with
  | Hc : (_ && Nat.eqb (String.length ?raw) 22)%bool = true |- _ =>
      apply andb_true_iff in Hc as [_ Hlen]; apply Nat.eqb_eq in Hlen
  end.
  simpl. now rewrite Hlen.
Qed.

Lemma verify_after_hash_with_salt (derive : string -> string -> string)
    (p salt digest : string) :
  PasswordHasher.hash_with_salt derive p salt = Ok digest ->
  PasswordHasher.verify derive p digest = Ok true.
Proof.
  unfold PasswordHasher.hash_with_salt, PasswordHasher.verify.
  destruct (Nat.ltb _ _); [discriminate |].
  destruct (PasswordHasher.parse_salt salt) as [x |] eqn:Hp; [| discriminate].
  intros E. inversion E; subst.
  rewrite <- (parse_salt_length _ _ Hp), substring_prefix, Hp, String.eqb_refl.
  reflexivity.
Qed.

(** X6: when [bcrypt.compare] accepts what [bcrypt.hash] produces, a
    login with the address and password of a registration that was
    answered 201 gets past both checks in any later world that holds the
    table the registration left: it ends as [jwt.sign] does, with 200 and
    the token signed for the new record's id, or with 400 when signing
    throws. *)
Theorem signUp_then_login `{Bcrypt} `{Jwt} (req : Request) (w w' : World) (u : User) :
  (forall p salt digest,
     bcrypt_hash p salt = Ok digest -> bcrypt_compare p digest = Ok true) ->
  fst (signUp req w) = created u ->
  db w' = db (snd (signUp req w)) ->
  login req w' =
    (match jwt_sign (VObj [("id", VNum (user_id u))]) (Some (SECRET (env w'))) "1h" (now w')
     with
     | Ok token => logged_in token
     | Throw msg => NextErr (mkApiError "Error logging in" 400 (VStr msg))
     end, w').
Proof.
  intros Hlib Hc Hdb.
  destruct (signUp_effect req w)
    as [(u0 & Hf & Hr & _ & Ho & _ & _ & He & Hnk) | (err & Hf & _)];
    [| rewrite Hf in Hc; discriminate].
  assert (u0 = u) as -> by (apply created_inj; congruence).
  assert (findUserByEmail (body_email req) (db w) = Ok None) as Hnone.
  { destruct (findUserByEmail (body_email req) (db w)) as [[v |] | msg] eqn:Ef.
    - rewrite (signUp_duplicate _ _ _ Ef) in Hc. discriminate.
    - reflexivity.
    - exfalso. revert Hc. unfold signUp. run. rewrite Ef. discriminate. }
  destruct (signUp_fresh _ _ Hnone) as [(salt & digest & _ & Hh & Hc') | (msg & Hc')];
    [| rewrite Hc' in Hc; discriminate].
  assert (user_password u = digest) as Hpw.
  { rewrite Hc' in Hc. apply created_inj in Hc. now subst u. }
  assert (findUserByEmail (body_email req) (db w') = Ok (Some u)) as Hfind.
  { rewrite Hdb. unfold findUserByEmail. rewrite Ho, Hr, find_app_split.
    unfold findUserByEmail in Hnone.
    destruct (outage (db w)); [discriminate |]. inversion Hnone as [Hn].
    rewrite Hn. simpl. rewrite He, String.eqb_refl. reflexivity. }
  apply (login_match _ _ _ Hfind). rewrite Hpw. apply (Hlib _ salt). exact Hh.
Qed.

Lemma signUp_then_login_witness :
  fst (@signUp (PasswordHasher.bcrypt Demo.derive)
         (Demo.post "alice" "alice@x.com" "Secret123!") (Demo.world Demo.empty_db)) =
    created Demo.alice /\
  @login (PasswordHasher.bcrypt Demo.derive) Demo.jwt
    (Demo.post "alice" "alice@x.com" "Secret123!") (Demo.world Demo.alice_db) =
    (logged_in "signed-with:secret", Demo.world Demo.alice_db).
Proof.
  split; [reflexivity |].
  rewrite (@signUp_then_login (PasswordHasher.bcrypt Demo.derive) Demo.jwt
             (Demo.post "alice" "alice@x.com" "Secret123!")
             (Demo.world Demo.empty_db) (Demo.world Demo.alice_db) Demo.alice
             (verify_after_hash_with_salt Demo.derive));
    reflexivity.
Defined.

(** ** The repository *)

(** X7: on a table as the migration wants it, an insert that succeeds
    returns the one new row, which both lookups then find, by its address
    and by its identifier; lookups under another address or identifier
    answer as before, and the table stays sound. *)
Theorem insertUser_then_find (name email password : string) (d d' : Db) (us : list User) :
  db_ok d ->
  insertUser name email password d = (Ok us, d') ->
  let u := mkUser (next_id d) name email password in
  us = [u] /\
  findUserByEmail email d' = Ok (Some u) /\
  findUserById (next_id d) d' = Ok (Some u) /\
  (forall e, e <> email -> findUserByEmail e d' = findUserByEmail e d) /\
  (forall i, i <> next_id d -> findUserById i d' = findUserById i d) /\
  db_ok d'.
Proof.
  intros Hok. unfold insertUser.
  destruct (outage d) eqn:Ho; [discriminate |].
  destruct (existsb _ (rows d)) eqn:Hex; [discriminate |].
  intros E. inversion E; subst. clear E. cbv zeta.
  assert (List.find (fun v => String.eqb (user_email v) email) (rows d) = None) as Hfe.
  { destruct (List.find (fun v => String.eqb (user_email v) email) (rows d))
      as [v |] eqn:Hf; [| reflexivity].
    apply find_some in Hf as [Hin Heq].
    assert (existsb (fun v => String.eqb (user_email v) email) (rows d) = true)
      by (apply existsb_exists; eauto).
    congruence. }
  assert (List.find (fun v => user_id v =? next_id d) (rows d) = None) as Hfi.
  { destruct (List.find (fun v => user_id v =? next_id d) (rows d)) as [v |] eqn:Hf;
      [| reflexivity].
    apply find_some in Hf as [Hin Heq]. apply Z.eqb_eq in Heq.
    destruct Hok as (_ & _ & Hlt). rewrite List.Forall_forall in Hlt.
    specialize (Hlt v Hin). lia. }
  split; [reflexivity |].
  unfold findUserByEmail, findUserById. simpl outage. simpl rows. rewrite Ho.
  split; [| split; [| split; [| split]]].
  - rewrite find_app_split, Hfe. simpl. now rewrite String.eqb_refl.
  - rewrite find_app_split, Hfi. simpl. now rewrite Z.eqb_refl.
  - intros e Hne. rewrite find_app_split.
    destruct (List.find (fun v => String.eqb (user_email v) e) (rows d));
      [reflexivity |]. simpl.
    assert (String.eqb email e = false) as -> by (apply String.eqb_neq; congruence).
    reflexivity.
  - intros i Hne. rewrite find_app_split.
    destruct (List.find (fun v => user_id v =? i) (rows d)); [reflexivity |]. simpl.
    assert ((next_id d =? i) = false) as -> by (apply Z.eqb_neq; congruence).
    reflexivity.
  - apply db_ok_snoc; [exact Hok | | reflexivity]. simpl.
    intros (v & Hin & Heq).
    assert (existsb (fun v => String.eqb (user_email v) email) (rows d) = true).
    { apply existsb_exists. exists v. split; [exact Hin |]. now apply String.eqb_eq. }
    congruence.
Qed.

Lemma demo_table_sound : db_ok Demo.alice_db.
Proof. unfold db_ok. simpl. repeat split; repeat constructor; simpl; tauto. Qed.

Lemma insertUser_then_find_witness :
  db_ok Demo.alice_db /\
  insertUser "bob" "bob@x.com" "digest" Demo.alice_db =
    (Ok [mkUser 2 "bob" "bob@x.com" "digest"],
     mkDb [Demo.alice; mkUser 2 "bob" "bob@x.com" "digest"] 3 None) /\
  findUserById 2 (mkDb [Demo.alice; mkUser 2 "bob" "bob@x.com" "digest"] 3 None) =
    Ok (Some (mkUser 2 "bob" "bob@x.com" "digest")).
Proof.
  split; [exact demo_table_sound |]. split; [reflexivity |].
  apply (insertUser_then_find "bob" "bob@x.com" "digest" Demo.alice_db
           (mkDb [Demo.alice; mkUser 2 "bob" "bob@x.com" "digest"] 3 None)
           [mkUser 2 "bob" "bob@x.com" "digest"] demo_table_sound).
  reflexivity.
Defined.

Lemma filter_keeps_all {A : Type} (p : A -> bool) (l : list A) :
  (forall x, In x l -> p x = true) -> List.filter p l = l.
Proof.
  induction l as [| a l IH]; simpl; intros Hall; [reflexivity |].
  rewrite (Hall a) by auto. f_equal. apply IH. auto.
Qed.

Lemma in_map_filter {A B : Type} (f : A -> B) (p : A -> bool) (l : list A) (y : B) :
  In y (map f (List.filter p l)) -> In y (map f l).
Proof.
  intros Hin. apply in_map_iff in Hin as (x & Heq & Hin).
  apply filter_In in Hin as [Hin _]. apply in_map_iff. eauto.
Qed.

Lemma NoDup_map_filter {A B : Type} (f : A -> B) (p : A -> bool) (l : list A) :
  List.NoDup (map f l) -> List.NoDup (map f (List.filter p l)).
Proof.
  induction l as [| a l IH]; simpl; intros Hnd; [constructor |].
  apply List.NoDup_cons_iff in Hnd as [Ha Hl].
  destruct (p a); simpl; [| now apply IH].
  apply List.NoDup_cons_iff. split; [| now apply IH].
  intros Hin. apply Ha. now apply in_map_filter in Hin.
Qed.

Lemma Forall_filter_keeps {A : Type} (P : A -> Prop) (p : A -> bool) (l : list A) :
  Forall P l -> Forall P (List.filter p l).
Proof.
  rewrite !List.Forall_forall. intros Hall x Hin.
  apply filter_In in Hin as [Hin _]. auto.
Qed.

Lemma find_id_after_delete (id i : Z) (l : list User) :
  List.find (fun u => user_id u =? i)
    (List.filter (fun u => negb (user_id u =? id)) l) =
  if i =? id then None else List.find (fun u => user_id u =? i) l.
Proof.
  induction l as [| a l IH]; simpl; [now destruct (i =? id) |].
  destruct (user_id a =? id) eqn:Ha; simpl.
  - rewrite IH. apply Z.eqb_eq in Ha. destruct (i =? id) eqn:Hi; [reflexivity |].
    assert ((user_id a =? i) = false) as ->; [| reflexivity].
    apply Z.eqb_neq. apply Z.eqb_neq in Hi. lia.
  - destruct (user_id a =? i) eqn:Hai; [| exact IH].
    apply Z.eqb_eq in Hai. apply Z.eqb_neq in Ha.
    assert ((i =? id) = false) as ->; [| reflexivity].
    apply Z.eqb_neq. lia.
Qed.

Lemma deleted_count (id : Z) (l : list User) :
  List.NoDup (map user_id l) ->
  Z.of_nat (length l)
  - Z.of_nat (length (List.filter (fun u => negb (user_id u =? id)) l)) =
  if existsb (fun u => user_id u =? id) l then 1 else 0.
Proof.
  induction l as [| a l IH]; simpl; intros Hnd; [reflexivity |].
  apply List.NoDup_cons_iff in Hnd as [Ha Hl]. specialize (IH Hl).
  destruct (user_id a =? id) eqn:Haid; simpl.
  - apply Z.eqb_eq in Haid. rewrite filter_keeps_all; [lia |].
    intros x Hin. apply negb_true_iff, Z.eqb_neq. intros Hx.
    apply Ha. apply in_map_iff. exists x. split; [lia | exact Hin].
  - lia.
Qed.

(** X8: a delete that succeeds leaves no record under the identifier,
    answers every other lookup by identifier as before, and keeps the
    sequence where it was, so the identifier is not handed out again; on a
    sound table the table stays sound and the number returned is 1 when a
    record had the identifier and 0 when none had. *)
Theorem deleteUser_removes (id : Z) (d d' : Db) (n : Z) :
  deleteUser id d = (Ok n, d') ->
  findUserById id d' = Ok None /\
  (forall i, i <> id -> findUserById i d' = findUserById i d) /\
  next_id d' = next_id d /\
  (db_ok d ->
   db_ok d' /\ n = if existsb (fun u => user_id u =? id) (rows d) then 1 else 0).
Proof.
  unfold deleteUser. destruct (outage d) eqn:Ho; [discriminate |].
  intros E. inversion E; subst. clear E.
  unfold findUserById. simpl outage. simpl rows. simpl next_id. rewrite Ho.
  split; [| split; [| split; [reflexivity |]]].
  - now rewrite find_id_after_delete, Z.eqb_refl.
  - intros i Hne. rewrite find_id_after_delete.
    apply Z.eqb_neq in Hne. now rewrite Hne.
  - intros (He & Hi & Hlt). split; [| now apply deleted_count].
    unfold db_ok. simpl. split; [| split].
    + now apply NoDup_map_filter.
    + now apply NoDup_map_filter.
    + now apply Forall_filter_keeps.
Qed.

Lemma deleteUser_removes_witness :
  deleteUser 1 Demo.alice_db = (Ok 1, mkDb [] 2 None) /\
  findUserById 1 (mkDb [] 2 None) = Ok None /\
  next_id (mkDb [] 2 None) = next_id Demo.alice_db.
Proof.
  split; [reflexivity |].
  destruct (deleteUser_removes 1 Demo.alice_db (mkDb [] 2 None) 1 eq_refl)
    as (Hgone & _ & Hseq & _).
  split; [exact Hgone | exact Hseq].
Defined.

(** ** The seed *)

(** X9: whatever the table held, as long as the database can be reached
    the seed leaves exactly the three example users, numbered from where
    the sequence stood, with the passwords as they are written in the
    seed file, and the table is sound afterwards. *)
Theorem seed_resets_the_table (d : Db) :
  outage d = None ->
  seed d =
    (Ok tt,
     mkDb [mkUser (next_id d) "Alice Souza" "alice@example.com" "hashed_password_1";
           mkUser (next_id d + 1) "Bruno Lima" "bruno@example.com" "hashed_password_2";
           mkUser (next_id d + 1 + 1) "Carla Mendes" "carla@example.com" "hashed_password_3"]
          (next_id d + 3) None) /\
  db_ok (snd (seed d)).
Proof.
  intros Ho.
  assert (seed d =
    (Ok tt,
     mkDb [mkUser (next_id d) "Alice Souza" "alice@example.com" "hashed_password_1";
           mkUser (next_id d + 1) "Bruno Lima" "bruno@example.com" "hashed_password_2";
           mkUser (next_id d + 1 + 1) "Carla Mendes" "carla@example.com" "hashed_password_3"]
          (next_id d + 3) None)) as E.
  { unfold seed, deleteAll. rewrite Ho. reflexivity. }
  split; [exact E |]. rewrite E. unfold db_ok. simpl.
  split; [| split].
  - repeat constructor; simpl; intuition discriminate.
  - repeat constructor; simpl; intuition lia.
  - repeat (apply List.Forall_cons; [simpl; lia |]). apply List.Forall_nil.
Qed.

Lemma seed_resets_the_table_witness :
  outage Demo.alice_db = None /\
  map user_email (rows (snd (seed Demo.alice_db))) =
    ["alice@example.com"; "bruno@example.com"; "carla@example.com"] /\
  map user_id (rows (snd (seed Demo.alice_db))) = [2; 3; 4].
Proof.
  split; [reflexivity |].
  destruct (seed_resets_the_table Demo.alice_db eq_refl) as [E _].
  rewrite E. split; reflexivity.
Defined.

(** ** The guard and the authorization header *)

Lemma join_split (s : string) : join " " (split " " s) = s.
Proof.
  induction s as [| c rest IH]; simpl; [reflexivity |].
  pose proof (split_nonempty " " rest) as Hne.
  destruct (Ascii.eqb c " ") eqn:Hc.
  - apply Ascii.eqb_eq in Hc. subst c.
    destruct (split " " rest) as [| seg segs]; [contradiction |].
    change (join " " ("" :: seg :: segs))
      with ("" ++ String " " (join " " (seg :: segs))).
    rewrite IH. reflexivity.
  - destruct (split " " rest) as [| seg segs]; [contradiction |].
    destruct segs as [| seg' segs].
    + change (join " " [String c seg]) with (String c (join " " [seg])).
      now rewrite IH.
    + change (join " " (String c seg :: seg' :: segs))
        with (String c (join " " (seg :: seg' :: segs))).
      now rewrite IH.
Qed.

Lemma split_segments_have_no_space (s : string) :
  Forall (fun seg => no_space seg = true) (split " " s).
Proof.
  induction s as [| c rest IH]; simpl; [repeat constructor |].
  destruct (Ascii.eqb c " ") eqn:Hc; [constructor; [reflexivity | exact IH] |].
  destruct (split " " rest) as [| seg segs]; [repeat constructor; simpl; now rewrite Hc |].
  inversion IH; subst. constructor; [| assumption]. simpl. now rewrite Hc.
Qed.

Lemma split_two (h a b : string) :
  split " " h = [a; b] ->
  h = a ++ " " ++ b /\ no_space a = true /\ no_space b = true.
Proof.
  intros E. pose proof (join_split h) as Hj. pose proof (split_segments_have_no_space h) as Hf.
  rewrite E in Hj, Hf.
  apply List.Forall_cons_iff in Hf as [Ha Hf].
  apply List.Forall_cons_iff in Hf as [Hb _].
  change (join " " [a; b]) with (a ++ " " ++ b) in Hj. auto.
Qed.

(** X10: for every implementation of jsonwebtoken, a request with no
    authorization header, with a header of one segment, or with a header
    whose second segment is empty (nothing, or a second blank, after the
    first blank) is turned away with 401 "Token not found"; a token that
    follows two blanks is not looked at. *)
Theorem guard_needs_a_second_segment `{Jwt} (req : Request) (w : World) :
  headers req !! "authorization" = None \/
  (exists h, headers req !! "authorization" = Some h /\ no_space h = true) \/
  (exists scheme rest,
     headers req !! "authorization" = Some (scheme ++ " " ++ rest) /\
     no_space scheme = true /\ (rest = "" \/ exists r, rest = String " " r)) ->
  authMiddleware req w = (NextErr token_not_found, w).
Proof.
  intros Hh. apply authMiddleware_no_token.
  destruct Hh as [-> | [(h & -> & Hn) | (scheme & rest & -> & Hn & Hr)]].
  - reflexivity.
  - unfold extract_token. destruct (String.eqb h "") eqn:He; [reflexivity |].
    now rewrite (split_no_space _ Hn).
  - unfold extract_token.
    change (scheme ++ " " ++ rest) with (scheme ++ String " " rest).
    rewrite append_space_not_empty, (split_at_first_space _ _ Hn).
    destruct Hr as [-> | [r ->]]; reflexivity.
Qed.

Lemma guard_needs_a_second_segment_witness :
  @authMiddleware Demo.jwt (Demo.get (Some "Bearer  signed-with:secret"))
    (Demo.world Demo.alice_db) =
    (NextErr token_not_found, Demo.world Demo.alice_db).
Proof.
  apply (@guard_needs_a_second_segment Demo.jwt
           (Demo.get (Some "Bearer  signed-with:secret")) (Demo.world Demo.alice_db)).
  right. right. exists "Bearer", " signed-with:secret".
  split; [reflexivity |]. split; [reflexivity |]. right. eexists. reflexivity.
Defined.

(** X11: when the header is a first segment, a blank and a non-empty
    second segment, possibly followed by further segments, the guard
    decides as [jwt.verify] answers for that second segment under
    [SECRET] at the time of the request: the decoded payload becomes
    [req.user] and the chain goes on, an error or an exception becomes a
    401 carrying its message.  The first segment plays no part. *)
Theorem guard_decides_as_verify `{Jwt} (scheme token : string) (req : Request) (w : World) :
  no_space scheme = true -> no_space token = true -> token <> "" ->
  headers req !! "authorization" = Some (scheme ++ " " ++ token) \/
  (exists extra,
     headers req !! "authorization" = Some (scheme ++ " " ++ token ++ " " ++ extra)) ->
  authMiddleware req w =
    (guard_verdict req (jwt_verify token (Some (SECRET (env w))) (now w)), w).
Proof.
  intros Hs Ht Hne Hh.
  destruct (extract_token_second_segment _ _ Hs Ht) as [Hx1 Hx2].
  assert (extract_token (headers req !! "authorization") = Some token) as Hx.
  { destruct Hh as [-> | [extra ->]]; [exact Hx1 | apply Hx2]. }
  rewrite (authMiddleware_verifies _ _ _ Hx Hne). unfold guard_verdict.
  destruct (jwt_verify _ _ _) as [[msg | decoded] | msg]; reflexivity.
Qed.

Lemma guard_decides_as_verify_witness :
  @authMiddleware Demo.jwt (Demo.get (Some "Token signed-with:other"))
    (Demo.world Demo.alice_db) =
    (NextErr (mkApiError "Error authenticating user" 401 (VStr "invalid signature")),
     Demo.world Demo.alice_db).
Proof.
  apply (@guard_decides_as_verify Demo.jwt "Token" "signed-with:other"
           (Demo.get (Some "Token signed-with:other")) (Demo.world Demo.alice_db)).
  - reflexivity.
  - reflexivity.
  - discriminate.
  - left. reflexivity.
Defined.

(** X12: the protected route of the scaffold.  Either the guard turns
    the request away, and then only the guard has run and the answer is
    401; or the guard has accepted a token, and then [getAll] has run on
    the request with [req.user] set and the answer is 200 with what the
    repository returned, 404, or 500. *)
Theorem profile_route_answers `{Jwt} (findAllUsers : Db -> Outcome JsVal)
    (req : Request) (w : World) :
  (exists err,
     authMiddleware req w = (NextErr err, w) /\
     dispatch (profile_route findAllUsers) req w =
       (["authMiddleware"], mkResponse 401 (ErrorPage (message err)), w)) \/
  (exists decoded res,
     authMiddleware req w = (Next (set_user req decoded), w) /\
     dispatch (profile_route findAllUsers) req w = (["authMiddleware"; "getAll"], res, w) /\
     ((exists users, findAllUsers (db w) = Ok users /\ truthy users = true /\
                     res = mkResponse 200 (JsonBody users)) \/
      res = mkResponse 404 (ErrorPage "Users not found") \/
      res = mkResponse 500 (ErrorPage "Error getting users"))).
Proof.
  destruct (authMiddleware_cases req w) as [[decoded E] | (msg & errs & E)].
  - right. exists decoded. unfold profile_route. cbn [dispatch]. rewrite E.
    unfold getAll. run.
    destruct (findAllUsers (db w)) as [users | msg] eqn:Ef; simpl.
    + destruct (truthy users) eqn:Ht; simpl; eexists; split; try reflexivity;
        split; try reflexivity; eauto 6.
    + eexists. split; [reflexivity |]. split; [reflexivity |]. auto.
  - left. eexists. split; [exact E |].
    unfold profile_route. cbn [dispatch]. rewrite E. reflexivity.
Qed.

(** ** The guide's middleware and profile route *)

Lemma guide_middleware_next `{Jwt} (req r : Request) (w w' : World) :
  guide_middleware req w = (Next r, w') ->
  exists token decoded,
    headers req !! "authorization" = Some ("Bearer " ++ token) /\
    no_space token = true /\
    jwt_verify token (env w !! "JWT_SECRET") (now w) = Ok (inr decoded) /\
    r = set_user req decoded /\ w' = w.
Proof.
  unfold guide_middleware, is_empty. run.
  destruct (headers req !! "authorization") as [h |]; [| discriminate].
  destruct (String.eqb h ""); [discriminate |].
  destruct (split " " h) as [| scheme [| token [| x segs]]] eqn:Hs; try discriminate.
  destruct (String.eqb scheme "Bearer") eqn:Hb; simpl; [| discriminate].
  apply String.eqb_eq in Hb. subst scheme.
  destruct (split_two _ _ _ Hs) as (Hh & _ & Ht).
  destruct (jwt_verify token _ _) as [[msg | decoded] | msg] eqn:Hv; simpl;
    try discriminate.
  intros E. inversion E; subst. exists token, decoded. auto.
Qed.

(** X13: the guide's middleware lets a request through only when its
    header is exactly the word Bearer, one blank and one further segment
    without blanks, and [jwt.verify] has decoded that segment under
    [process.env.JWT_SECRET] as it is, with no default when it is unset;
    what goes on is the request with [req.user] set to the decoded
    payload. *)
Theorem guide_middleware_accepts_only_bearer `{Jwt} (req r : Request) (w w' : World) :
  guide_middleware req w = (Next r, w') ->
  exists token decoded,
    headers req !! "authorization" = Some ("Bearer " ++ token) /\
    no_space token = true /\
    jwt_verify token (env w !! "JWT_SECRET") (now w) = Ok (inr decoded) /\
    r = set_user req decoded /\ w' = w.
Proof. exact (guide_middleware_next req r w w'). Qed.

Lemma guide_middleware_accepts_only_bearer_witness :
  exists token decoded,
    headers (Demo.get (Some "Bearer signed-with:k1")) !! "authorization"
      = Some ("Bearer " ++ token) /\
    no_space token = true /\
    @jwt_verify Demo.jwt token (Some "k1") 1000 = Ok (inr decoded) /\
    set_user (Demo.get (Some "Bearer signed-with:k1")) (VObj [("id", VNum 1)])
      = set_user (Demo.get (Some "Bearer signed-with:k1")) decoded /\
    with_secret (Demo.world Demo.alice_db) "k1" = with_secret (Demo.world Demo.alice_db) "k1".
Proof.
  apply (@guide_middleware_accepts_only_bearer Demo.jwt
           (Demo.get (Some "Bearer signed-with:k1"))
           (set_user (Demo.get (Some "Bearer signed-with:k1")) (VObj [("id", VNum 1)]))
           (with_secret (Demo.world Demo.alice_db) "k1")
           (with_secret (Demo.world Demo.alice_db) "k1")).
  reflexivity.
Defined.

(** X14: the guide's middleware answers every refusal itself, with
    status 401 and a message; it never calls [next] with an error, and
    having no [try] it lets an exception of [jwt.verify] escape. *)
Theorem guide_middleware_refuses_with_401 `{Jwt} (req : Request) (w : World) :
  snd (guide_middleware req w) = w /\
  ((exists decoded, fst (guide_middleware req w) = Next (set_user req decoded)) \/
   (exists msg, fst (guide_middleware req w) = Send 401 (VObj [("message", VStr msg)])) \/
   (exists token msg,
      jwt_verify token (env w !! "JWT_SECRET") (now w) = Throw msg /\
      fst (guide_middleware req w) = Uncaught msg)).
Proof.
  unfold guide_middleware. run.
  destruct (headers req !! "authorization") as [h |]; simpl; [| eauto].
  destruct (is_empty h); simpl; [eauto |].
  destruct (split " " h) as [| scheme [| token [| x segs]]]; simpl; eauto.
  destruct (String.eqb scheme "Bearer"); simpl; [| eauto].
  destruct (jwt_verify token _ _) as [[msg | decoded] | msg] eqn:Hv; simpl; eauto 7.
Qed.

(** X15: behind the guide's middleware the profile handler runs only
    for a request whose Bearer token was decoded, and when the decoded
    payload is neither [undefined] nor [null] it answers 200 with the
    payload's [sub] as [userId]; it never meets a missing [req.user]. *)
Theorem guide_profile_runs_behind_the_guard `{Jwt} (req : Request) (w : World) :
  In "profile" (fst (fst (dispatch guide_profile_route req w))) ->
  exists token decoded,
    headers req !! "authorization" = Some ("Bearer " ++ token) /\
    jwt_verify token (env w !! "JWT_SECRET") (now w) = Ok (inr decoded) /\
    (decoded <> VUndefined -> decoded <> VNull ->
     dispatch guide_profile_route req w =
       (["authMiddleware"; "profile"],
        mkResponse 200 (JsonBody (VObj [("message", VStr "Acesso autorizado");
                                        ("userId", prop "sub" decoded)])), w)).
Proof.
  unfold guide_profile_route. cbn [dispatch].
  destruct (guide_middleware req w) as [a w'] eqn:E.
  destruct a as [r | err | code body | msg];
    try (simpl; intros [Hin | []]; discriminate).
  destruct (guide_middleware_next _ _ _ _ E)
    as (token & decoded & Hh & _ & Hv & -> & ->).
  intros _. exists token, decoded. split; [exact Hh |]. split; [exact Hv |].
  intros Hu Hn. unfold profile. run.
  destruct decoded; try reflexivity; contradiction.
Qed.

Lemma guide_profile_runs_behind_the_guard_witness :
  In "profile"
    (fst (fst (dispatch (@guide_profile_route Demo.jwt)
                 (Demo.get (Some "Bearer signed-with:k1"))
                 (with_secret (Demo.world Demo.alice_db) "k1")))) /\
  exists token decoded,
    headers (Demo.get (Some "Bearer signed-with:k1")) !! "authorization"
      = Some ("Bearer " ++ token) /\
    @jwt_verify Demo.jwt token
      (env (with_secret (Demo.world Demo.alice_db) "k1") !! "JWT_SECRET") 1000
      = Ok (inr decoded) /\
    (decoded <> VUndefined -> decoded <> VNull ->
     dispatch (@guide_profile_route Demo.jwt) (Demo.get (Some "Bearer signed-with:k1"))
       (with_secret (Demo.world Demo.alice_db) "k1") =
       (["authMiddleware"; "profile"],
        mkResponse 200 (JsonBody (VObj [("message", VStr "Acesso autorizado");
                                        ("userId", prop "sub" decoded)])),
        with_secret (Demo.world Demo.alice_db) "k1")).
Proof.
  assert (In "profile"
    (fst (fst (dispatch (@guide_profile_route Demo.jwt)
                 (Demo.get (Some "Bearer signed-with:k1"))
                 (with_secret (Demo.world Demo.alice_db) "k1"))))) as Hin.
  { vm_compute. auto. }
  split; [exact Hin |].
  exact (@guide_profile_runs_behind_the_guard Demo.jwt
           (Demo.get (Some "Bearer signed-with:k1"))
           (with_secret (Demo.world Demo.alice_db) "k1") Hin).
Defined.

(** ** The guide's controllers and service *)

(** X16: the guide's login answers an unknown address and a wrong
    password alike, whatever the libraries and the user model: the two
    answers cannot be told apart. *)
Theorem login_guide_hides_which_check_failed `{Bcrypt} `{Jwt} `{UserModel}
    (req1 req2 : Request) (w1 w2 : World) (u : User) :
  body_email req1 <> "" -> body_password req1 <> "" ->
  body_email req2 <> "" -> body_password req2 <> "" ->
  findOne (body_email req1) (db w1) = Ok None ->
  findOne (body_email req2) (db w2) = Ok (Some u) ->
  bcrypt_compare (body_password req2) (user_password u) = Ok false ->
  fst (login_guide req1 w1) = fst (login_guide req2 w2).
Proof. exact (login_guide_indistinguishable req1 req2 w1 w2 u). Qed.

Lemma login_guide_hides_which_check_failed_witness :
  fst (@login_guide Demo.bcrypt Demo.jwt Demo.model
         (Demo.post "" "bob@x.com" "Secret123!") (Demo.world Demo.alice_db)) =
  fst (@login_guide Demo.bcrypt Demo.jwt Demo.model
         (Demo.post "" "alice@x.com" "guess") (Demo.world Demo.alice_db)).
Proof.
  apply (@login_guide_hides_which_check_failed Demo.bcrypt Demo.jwt Demo.model
           (Demo.post "" "bob@x.com" "Secret123!") (Demo.post "" "alice@x.com" "guess")
           (Demo.world Demo.alice_db) (Demo.world Demo.alice_db) Demo.alice);
    try discriminate; reflexivity.
Defined.

(** X17: the guide's login answers with a token only after the model
    found a record for the address and [bcrypt.compare] answered true;
    the token is signed for the payload [{ sub, email }] of that record
    with [process.env.JWT_SECRET] as it is (no default) and expires after
    [JWT_EXPIRES_IN], one day when that is unset or empty; the answer
    repeats [JWT_EXPIRES_IN] as it is set. *)
Theorem login_guide_token_only_after_check `{Bcrypt} `{Jwt} `{UserModel}
    (req : Request) (w w' : World) (body : JsVal) :
  login_guide req w = (Send 200 body, w') ->
  exists u token,
    findOne (body_email req) (db w) = Ok (Some u) /\
    bcrypt_compare (body_password req) (user_password u) = Ok true /\
    jwt_sign (VObj [("sub", VNum (user_id u)); ("email", VStr (user_email u))])
      (env w !! "JWT_SECRET") (str_or (env w !! "JWT_EXPIRES_IN") "1d") (now w)
      = Ok token /\
    body = VObj [("token", VStr token);
                 ("expiresIn", opt_str (env w !! "JWT_EXPIRES_IN"))] /\
    w' = w.
Proof.
  unfold login_guide, compararSenha, gerarToken, jwtSecret, jwtExpiresIn. run.
  destruct (is_empty (body_email req) || is_empty (body_password req)); simpl;
    [discriminate |].
  destruct (findOne _ _) as [[u |] | msg]; simpl; try discriminate.
  destruct (bcrypt_compare _ _) as [[|] | msg] eqn:Hc; simpl; try discriminate.
  destruct (jwt_sign _ _ _ _) as [token | msg] eqn:Hs; simpl; try discriminate.
  intros E. inversion E; subst. exists u, token. auto.
Qed.

Lemma login_guide_token_only_after_check_witness :
  exists u token,
    @findOne Demo.model "alice@x.com" Demo.alice_db = Ok (Some u) /\
    @bcrypt_compare Demo.bcrypt "Secret123!" (user_password u) = Ok true /\
    @jwt_sign Demo.jwt (VObj [("sub", VNum (user_id u)); ("email", VStr (user_email u))])
      (env (with_secret (Demo.world Demo.alice_db) "k1") !! "JWT_SECRET")
      (str_or (env (with_secret (Demo.world Demo.alice_db) "k1") !! "JWT_EXPIRES_IN") "1d")
      1000 = Ok token /\
    VObj [("token", VStr "signed-with:k1"); ("expiresIn", VUndefined)] =
    VObj [("token", VStr token);
          ("expiresIn",
           opt_str (env (with_secret (Demo.world Demo.alice_db) "k1") !! "JWT_EXPIRES_IN"))] /\
    with_secret (Demo.world Demo.alice_db) "k1" = with_secret (Demo.world Demo.alice_db) "k1".
Proof.
  apply (@login_guide_token_only_after_check Demo.bcrypt Demo.jwt Demo.model
           (Demo.post "" "alice@x.com" "Secret123!")
           (with_secret (Demo.world Demo.alice_db) "k1")
           (with_secret (Demo.world Demo.alice_db) "k1")
           (VObj [("token", VStr "signed-with:k1"); ("expiresIn", VUndefined)])).
  reflexivity.
Defined.


(** X19: the guide's registration answers 201 only after it has handed
    to [User.create] the received name and address together with what
    [bcrypt.hash] made of the received password, under a salt generated
    for [BCRYPT_SALT_ROUNDS] (10 when unset or empty); the plaintext is
    not what is stored. *)
Theorem register_guide_stores_the_hash `{Bcrypt} `{UserModel}
    (req : Request) (w w' : World) (body : JsVal) :
  register req w = (Send 201 body, w') ->
  exists salt digest u,
    bcrypt_genSalt (saltRounds (env w)) (hd "" (entropy w)) = Ok salt /\
    bcrypt_hash (body_password req) salt = Ok digest /\
    fst (create (body_name req) (body_email req) digest (db w)) = Ok u /\
    db w' = snd (create (body_name req) (body_email req) digest (db w)).
Proof.
  unfold register, hashSenha. run.
  destruct (is_empty (body_name req) || is_empty (body_email req)
            || is_empty (body_password req)); simpl; [discriminate |].
  destruct (findOne _ _) as [[u |] | msg]; simpl; try discriminate.
  destruct (bcrypt_genSalt _ _) as [salt | msg] eqn:Hs; simpl; [| discriminate].
  destruct (bcrypt_hash _ salt) as [digest | msg] eqn:Hh; simpl; [| discriminate].
  destruct (create _ _ _ _) as [[u | msg] d] eqn:Hc; simpl; [| discriminate].
  intros E. inversion E; subst. exists salt, digest, u.
  rewrite Hc. simpl. auto.
Qed.

Lemma register_guide_stores_the_hash_witness :
  exists salt digest u,
    @bcrypt_genSalt Demo.bcrypt (saltRounds (env (Demo.world Demo.empty_db)))
      (hd "" (entropy (Demo.world Demo.empty_db))) = Ok salt /\
    @bcrypt_hash Demo.bcrypt "Secret123!" salt = Ok digest /\
    fst (@create Demo.model "alice" "alice@x.com" digest Demo.empty_db) = Ok u /\
    Demo.alice_db = snd (@create Demo.model "alice" "alice@x.com" digest Demo.empty_db).
Proof.
  apply (@register_guide_stores_the_hash Demo.bcrypt Demo.model
           (Demo.post "alice" "alice@x.com" "Secret123!") (Demo.world Demo.empty_db)
           (mkWorld ∅ Demo.alice_db 1000 ["pepperpepperpepperpeppe"])
           (VObj [("id", VNum 1); ("nome", VStr "alice"); ("email", VStr "alice@x.com")])).
  reflexivity.
Defined.

(** X20: the record a registration of the scaffold creates holds, as its
    password, what [bcrypt.hash] made of the received password under a
    salt that [bcrypt.genSalt] generated for the cost [SALT_ROUNDS], 10
    when that is unset, not a number or zero. *)
Theorem signUp_stores_the_digest `{Bcrypt} (req : Request) (w : World) (u : User) :
  fst (signUp req w) = created u ->
  exists salt,
    bcrypt_genSalt (Some (num_or (parseInt (env w !! "SALT_ROUNDS")) 10))
      (hd "" (entropy w)) = Ok salt /\
    bcrypt_hash (body_password req) salt = Ok (user_password u).
Proof.
  intros Hc.
  assert (findUserByEmail (body_email req) (db w) = Ok None) as Hnone.
  { destruct (findUserByEmail (body_email req) (db w)) as [[v |] | msg] eqn:Ef.
    - rewrite (signUp_duplicate _ _ _ Ef) in Hc. discriminate.
    - reflexivity.
    - exfalso. revert Hc. unfold signUp. run. rewrite Ef. discriminate. }
  destruct (signUp_fresh _ _ Hnone) as [(salt & digest & Hs & Hh & Hc') | (msg & Hc')];
    rewrite Hc' in Hc; [| discriminate].
  apply created_inj in Hc. subst u. exists salt. auto.
Qed.

Lemma signUp_stores_the_digest_witness :
  exists salt,
    @bcrypt_genSalt Demo.bcrypt (Some 10) "saltsaltsaltsaltsaltsa" = Ok salt /\
    @bcrypt_hash Demo.bcrypt "Secret123!" salt = Ok Demo.alice_digest.
Proof.
  apply (@signUp_stores_the_digest Demo.bcrypt
           (Demo.post "alice" "alice@x.com" "Secret123!") (Demo.world Demo.empty_db)
           Demo.alice).
  reflexivity.
Defined.
